(** * Koharu asset-preparation scripts: a shallow embedding

    The three scripts under [scripts/] are embedded as programs of a small
    state-and-exception monad over a model of the file system:

    - [scripts/convert_font_detection.py]  (module [FontDetection])
    - [scripts/convert_font_labels.py]     (module [FontLabels])
    - [scripts/cuda.py]                    (module [Cuda])

    Calls that leave the scripts (the hub download, [torch.load],
    [pickle.load], [subprocess.run], the glob over the virtual environment)
    are section variables: the theorems hold for every behaviour of these
    collaborators. *)

From Stdlib Require Import ZArith List String Ascii Lia.
From stdpp Require Import base option list strings gmap sets pretty.

Local Open Scope string_scope.
Local Open Scope list_scope.
Local Open Scope stdpp_scope.
Set Warnings "-register-all".

(** ** Python values, exceptions and process outcomes *)

Module Py.

(** The fragment of Python objects the scripts are exercised on. A [str] is
    held as the bytes of its UTF-8 encoding; an instance carries the name of
    its class and its [__dict__]. Floats, tuples and sets are not part of the
    fragment, and the keys of a [dict] are strings. *)
Inductive value : Type :=
| PyNone
| PyBool (b : bool)
| PyInt (z : Z)
| PyStr (s : string)
| PyBytes (b : string)
| PyList (l : list value)
| PyDict (d : list (string * value))
| PyObj (cls : string) (attrs : list (string * value)).

(** Exceptions that reach the top level. [OSError] stands for its
    subclasses ([FileExistsError], [FileNotFoundError], [IsADirectoryError],
    [NotADirectoryError]); [LibraryError] is whatever a collaborator raises
    from inside (retrieval, deserialisation, validation). *)
Inductive exc : Type :=
| RuntimeError (msg : string)
| TypeError (msg : string)
| OSError (msg : string)
| StopIteration
| CalledProcessError (cmd : list string) (returncode : Z)
| LibraryError (origin : string).

(** How a run of [main] ends: it returns, an exception escapes, or
    [sys.exit(msg)] is called with a string. *)
Inductive outcome (A : Type) : Type :=
| Returned (a : A)
| Raised (e : exc)
| Exited (msg : string).
Arguments Returned {A} a.
Arguments Raised {A} e.
Arguments Exited {A} msg.

(** The status the interpreter hands to the operating system: 0 on a normal
    return, 1 for an uncaught exception and for [sys.exit] with a string. *)
Definition exit_status {A} (o : outcome A) : Z :=
  match o with
  | Returned _ => 0
  | Raised _ => 1
  | Exited _ => 1
  end.

Definition failed {A} (o : outcome A) : Prop :=
  match o with
  | Returned _ => False
  | _ => True
  end.

(** Programs over a state [S]. *)
Definition prog (S A : Type) : Type := S -> outcome A * S.

Definition ret {S A} (a : A) : prog S A := fun s => (Returned a, s).

Definition bind {S A B} (m : prog S A) (k : A -> prog S B) : prog S B :=
  fun s =>
    match m s with
    | (Returned a, s') => k a s'
    | (Raised e, s') => (Raised e, s')
    | (Exited msg, s') => (Exited msg, s')
    end.

Definition raise {S A} (e : exc) : prog S A := fun s => (Raised e, s).
Definition sys_exit {S A} (msg : string) : prog S A := fun s => (Exited msg, s).
Definition gets {S A} (f : S -> A) : prog S A := fun s => (Returned (f s), s).
Definition modify {S} (f : S -> S) : prog S unit := fun s => (Returned tt, f s).

(** A call whose result is either an exception or a value. *)
Definition lift {S A} (r : exc + A) : prog S A :=
  match r with
  | inl e => raise e
  | inr a => ret a
  end.

(** A call that may raise and otherwise updates the state. *)
Definition update {S} (f : S -> exc + S) : prog S unit :=
  fun s =>
    match f s with
    | inl e => (Raised e, s)
    | inr s' => (Returned tt, s')
    end.

End Py.

Export Py.

Declare Scope prog_scope.
Delimit Scope prog_scope with prog.
Notation "x <~ m ;; k" := (bind m (fun x => k))
  (at level 100, m at next level, right associativity) : prog_scope.
Notation "m ;;; k" := (bind m (fun _ => k))
  (at level 100, right associativity) : prog_scope.

(** ** The file system *)

Module FS.

(** A path is the list of its components below the root (the current
    directory for the relative defaults of the scripts); the root itself is
    the empty list and is always a directory. *)
Abbreviation path := (list string).

Definition parent (p : path) : path := removelast p.

(** [str(path)] *)
Definition show (p : path) : string := String.concat "/" p.

Record t (C : Type) : Type := mk
  { dirs : gset path;
    files : gmap path C }.
Arguments mk {C} dirs files.
Arguments dirs {C} _.
Arguments files {C} _.

Section ops.
Context {C : Type}.
Implicit Types (fs : t C) (p : path).

Definition is_dir fs p : bool := bool_decide (p = [] \/ p ∈ dirs fs).
Definition is_file fs p : bool := bool_decide (is_Some (files fs !! p)).

(** [Path.exists()] *)
Definition exists_ fs p : bool := is_dir fs p || is_file fs p.

Definition add_dir p fs : t C :=
  if is_dir fs p then fs else mk ({[ p ]} ∪ dirs fs) (files fs).

Definition put p (c : C) fs : t C := mk (dirs fs) (<[ p := c ]> (files fs)).

(** [Path.mkdir(parents=True, exist_ok=True)], walking from the root down:
    a component that is a directory is kept, a missing one is created, and
    one that is a regular file makes the call raise. *)
Fixpoint mkdir_from (base : path) (rest : list string) fs : exc + t C :=
  match rest with
  | [] => inr fs
  | c :: rest' =>
      let d := base ++ [c] in
      if is_file fs d then inl (OSError ("File exists: " +:+ show d))
      else mkdir_from d rest' (add_dir d fs)
  end.

Definition mkdir_parents p fs : exc + t C := mkdir_from [] p fs.

(** [Path.mkdir(exist_ok=True)]: the parent must be there already. *)
Definition mkdir p fs : exc + t C :=
  if is_dir fs p then inr fs
  else if is_file fs p then inl (OSError ("File exists: " +:+ show p))
  else if is_dir fs (parent p) then inr (add_dir p fs)
  else inl (OSError ("No such file or directory: " +:+ show p)).

(** Opening [p] for writing creates or truncates the file: its content
    becomes [empty]. *)
Definition open_w (empty : C) p fs : exc + t C :=
  if is_dir fs p then inl (OSError ("Is a directory: " +:+ show p))
  else if is_dir fs (parent p) then inr (put p empty fs)
  else inl (OSError ("No such file or directory: " +:+ show p)).

(** Opening [p] for reading and reading it whole. *)
Definition read p fs : exc + C :=
  match files fs !! p with
  | Some c => inr c
  | None =>
      if is_dir fs p then inl (OSError ("Is a directory: " +:+ show p))
      else inl (OSError ("No such file or directory: " +:+ show p))
  end.

End ops.

End FS.

(** ** [json.dump(obj, fp, ensure_ascii=False, indent=2)]

    The text CPython's [json.encoder] sends to the file: with an indent the
    encoder is always the pure-Python generator [_make_iterencode], whose
    chunks are written one by one, so an object that cannot be serialised
    raises [TypeError] after the text that precedes it has been written. *)

Module Json.

(** The emitted text, and the exception that ended the encoding if any. *)
Definition enc : Type := string * option exc.

Definition emit (s : string) : enc := (s, None).
Definition fail (e : exc) : enc := ("", Some e).

Definition seq (a b : enc) : enc :=
  match a with
  | (s, Some e) => (s, Some e)
  | (s, None) => (s +:+ b.1, b.2)
  end.

Definition dquote : string := String "034"%char "".
Definition newline : string := String "010"%char "".

Definition hex_digit (n : nat) : string :=
  String (nth n (list_ascii_of_string "0123456789abcdef") "0"%char) "".

(** [ESCAPE_DCT] of [json.encoder]: the quote, the backslash and the
    control characters below 0x20; everything else is kept as it is. *)
Definition escape_char (c : ascii) : string :=
  let n := nat_of_ascii c in
  if (n =? 34)%nat then "\" +:+ dquote
  else if (n =? 92)%nat then "\\"
  else if (n =? 8)%nat then "\b"
  else if (n =? 12)%nat then "\f"
  else if (n =? 10)%nat then "\n"
  else if (n =? 13)%nat then "\r"
  else if (n =? 9)%nat then "\t"
  else if (n <? 32)%nat then "\u00" +:+ hex_digit (n / 16) +:+ hex_digit (n mod 16)
  else String c "".

Fixpoint escape (s : string) : string :=
  match s with
  | EmptyString => ""
  | String c r => escape_char c +:+ escape r
  end.

(** [py_encode_basestring] *)
Definition encode_basestring (s : string) : string :=
  dquote +:+ escape s +:+ dquote.

(** [int.__repr__] *)
Definition intstr (z : Z) : string := pretty z.

Fixpoint spaces (n : nat) : string :=
  match n with
  | O => ""
  | S m => "  " +:+ spaces m
  end.

(** ['\n' + _indent * _current_indent_level] with [_indent = '  '] *)
Definition newline_indent (level : nat) : string := newline +:+ spaces level.

Definition not_serializable (type_name : string) : exc :=
  TypeError ("Object of type " +:+ type_name +:+ " is not JSON serializable").

(** [_iterencode], [_iterencode_list] and [_iterencode_dict] at indent level
    [level]; the item separator is [','] and the key separator [': ']. *)
Fixpoint iterencode (o : value) (level : nat) {struct o} : enc :=
  match o with
  | PyStr s => emit (encode_basestring s)
  | PyNone => emit "null"
  | PyBool true => emit "true"
  | PyBool false => emit "false"
  | PyInt z => emit (intstr z)
  | PyList [] => emit "[]"
  | PyList lst =>
      let sep := newline_indent (S level) in
      seq (emit "[")
        (seq
           ((fix items (l : list value) (first : bool) : enc :=
               match l with
               | [] => emit ""
               | v :: r =>
                   seq (emit (if first then sep else "," +:+ sep))
                     (seq (iterencode v (S level)) (items r false))
               end) lst true)
           (emit (newline_indent level +:+ "]")))
  | PyDict [] => emit "{}"
  | PyDict dct =>
      let sep := newline_indent (S level) in
      seq (emit "{")
        (seq
           ((fix items (l : list (string * value)) (first : bool) : enc :=
               match l with
               | [] => emit ""
               | (k, v) :: r =>
                   seq (emit ((if first then sep else "," +:+ sep)
                              +:+ encode_basestring k +:+ ": "))
                     (seq (iterencode v (S level)) (items r false))
               end) dct true)
           (emit (newline_indent level +:+ "}")))
  | PyBytes _ => fail (not_serializable "bytes")
  | PyObj cls _ => fail (not_serializable cls)
  end.





End Json.

(** ** [scripts/convert_font_labels.py] *)

Module FontLabels.

Import FS.

(** [parse_args]: the two paths. *)
Record Args : Type := mkArgs
  { input : path;
    output : path }.

Definition default_args : Args :=
  {| input := ["font_demo_cache.bin"];
     output := ["yuzumarker-font-labels.json"] |}.

(** What a run does besides touching files: the calls of [pickle.load] and
    the lines sent to standard output. *)
Inductive event : Type :=
| EvPickleLoad (p : path)
| EvPrint (line : string).

Record state : Type := mkState
  { fs : FS.t string;
    trace : list event }.

Fixpoint assoc (name : string) (d : list (string * value)) : option value :=
  match d with
  | [] => None
  | (k, v) :: r => if bool_decide (k = name) then Some v else assoc name r
  end.

(** [getattr(o, name, default)] for the names [path] and [language]: an
    instance answers from its [__dict__] (the stub class [DSFont] has no
    class attributes), and no built-in type of the fragment has an attribute
    of either name. *)
Definition getattr (o : value) (name : string) (default : value) : value :=
  match o with
  | PyObj _ attrs =>
      match assoc name attrs with
      | Some v => v
      | None => default
      end
  | _ => default
  end.

(** The items [for item in data] goes through, or the [TypeError] of a
    root that is not iterable. A [str] is split per byte (per code point in
    Python; no such item has a [path] either way). *)
Definition not_iterable (type_name : string) : exc :=
  TypeError ("'" +:+ type_name +:+ "' object is not iterable").

Definition iter (o : value) : exc + list value :=
  match o with
  | PyList l => inr l
  | PyDict d => inr (map (fun kv => PyStr kv.1) d)
  | PyStr s => inr (map (fun c => PyStr (String c "")) (list_ascii_of_string s))
  | PyBytes b => inr (map (fun c => PyInt (Z.of_nat (nat_of_ascii c))) (list_ascii_of_string b))
  | PyNone => inl (not_iterable "NoneType")
  | PyBool _ => inl (not_iterable "bool")
  | PyInt _ => inl (not_iterable "int")
  | PyObj cls _ => inl (not_iterable cls)
  end.

(** [{"path": path, "language": language}] *)
Definition entry (path language : value) : value :=
  PyDict [("path", path); ("language", language)].

(** The loop of [main] over the items, [entries] being the list built so
    far. *)
Fixpoint collect (data : list value) (entries : list value) : list value :=
  match data with
  | [] => entries
  | item :: rest =>
      let path := getattr item "path" PyNone in
      let language := getattr item "language" PyNone in
      match path with
      | PyNone => collect rest entries
      | _ => collect rest (entries ++ [entry path language])
      end
  end.

Definition on_fs (f : FS.t string -> exc + FS.t string) : prog state unit :=
  update (fun st =>
            match f (fs st) with
            | inl e => inl e
            | inr fs' => inr (mkState fs' (trace st))
            end).

Definition log (ev : event) : prog state unit :=
  modify (fun st => mkState (fs st) (trace st ++ [ev])).

Definition print (line : string) : prog state unit := log (EvPrint line).

Section main.

(** [pickle.load] on the bytes of the input file, with the stub module
    [font_dataset.font] and its class [DSFont] registered in [sys.modules]. *)
Variable unpickle : string -> exc + value.

(** [with open(p, "rb") as f: data = pickle.load(f)] *)
Definition pickle_load (p : path) : prog state value :=
  (content <~ (fun st => lift (FS.read p (fs st)) st) ;;
   log (EvPickleLoad p) ;;;
   lift (unpickle content))%prog.

(** [with open(p, "w", encoding="utf-8") as f: json.dump(entries, f, ...)]
    once the file is open: the text emitted reaches the file, also when the
    encoder raises. *)
Definition json_dump (entries : list value) (p : path) : prog state unit :=
  let r := Json.iterencode (PyList entries) 0 in
  (modify (fun st => mkState (FS.put p r.1 (fs st)) (trace st)) ;;;
   match r.2 with
   | None => ret tt
   | Some e => raise e
   end)%prog.

Definition wrote (n : nat) (p : path) : string :=
  "Wrote " +:+ pretty n +:+ " labels to " +:+ FS.show p.

Definition main (args : Args) : prog state unit :=
  (found <~ gets (fun st => FS.exists_ (fs st) (input args)) ;;
   if negb found
   then sys_exit ("Input file not found: " +:+ FS.show (input args))
   else
     data <~ pickle_load (input args) ;;
     items <~ lift (iter data) ;;
     let entries := collect items [] in
     on_fs (FS.mkdir_parents (FS.parent (output args))) ;;;
     on_fs (FS.open_w "" (output args)) ;;;
     json_dump entries (output args) ;;;
     print (wrote (length entries) (output args)))%prog.

End main.

(** The spec's words for one record (section 4.2): a record whose [path]
    field is absent or null is dropped; otherwise it is kept, [language]
    defaulting to null when absent. [field] is [None] for an absent field. *)
Definition field (item : value) (name : string) : option value :=
  match item with
  | PyObj _ attrs => assoc name attrs
  | _ => None
  end.

Definition label_of_record (item : value) : option value :=
  match field item "path" with
  | None => None
  | Some PyNone => None
  | Some path =>
      Some (PyDict [("path", path);
                    ("language", default PyNone (field item "language"))])
  end.

(** The spec's words for the shape of the graph (section 3): the root is a
    sequence of records, each an instance of the foreign class. *)
Definition is_record (item : value) : bool :=
  match item with
  | PyObj _ _ => true
  | _ => false
  end.

Definition record_sequence (root : value) : bool :=
  match root with
  | PyList items => forallb is_record items
  | _ => false
  end.

(** The spec's words for a [LabelEntry] (section 3): [path] is a non-empty
    string and [language] a string or null. *)
Definition label_entry (e : value) : bool :=
  match e with
  | PyDict [(k1, PyStr path); (k2, language)] =>
      bool_decide (k1 = "path") && bool_decide (k2 = "language")
      && negb (bool_decide (path = ""))
      && match language with PyStr _ | PyNone => true | _ => false end
  | _ => false
  end.

(** [path is not None] for the [path] the loop reads off an item. *)
Definition has_path (item : value) : bool :=
  match getattr item "path" PyNone with
  | PyNone => false
  | _ => true
  end.

(** The graph of the end-to-end example, as [pickle.load] rebuilds it. *)
Definition DSFont (path language : value) : value :=
  PyObj "DSFont" [("path", path); ("language", language)].

Definition example_graph : value :=
  PyList [DSFont (PyStr "a.ttf") (PyStr "en");
          DSFont PyNone (PyStr "ja");
          DSFont (PyStr "b.ttf") PyNone].

Definition example_labels : list value :=
  [PyDict [("path", PyStr "a.ttf"); ("language", PyStr "en")];
   PyDict [("path", PyStr "b.ttf"); ("language", PyNone)]].

(** Text written out character by character: [quoted s] is [s] between two
    double quotes (character 34) and [lines] joins with line feeds
    (character 10). *)
Definition quoted (s : string) : string :=
  String "034"%char (s +:+ String "034"%char "").

Definition lines (l : list string) : string :=
  String.concat (String "010"%char "") l.

(** The text of the output file for the graph of the example, and for a
    graph of one record whose [path] is the empty string. *)
Definition example_text : string :=
  lines ["[";
         "  {";
         "    " +:+ quoted "path" +:+ ": " +:+ quoted "a.ttf" +:+ ",";
         "    " +:+ quoted "language" +:+ ": " +:+ quoted "en";
         "  },";
         "  {";
         "    " +:+ quoted "path" +:+ ": " +:+ quoted "b.ttf" +:+ ",";
         "    " +:+ quoted "language" +:+ ": null";
         "  }";
         "]"].

Definition empty_path_text : string :=
  lines ["[";
         "  {";
         "    " +:+ quoted "path" +:+ ": " +:+ quoted "" +:+ ",";
         "    " +:+ quoted "language" +:+ ": " +:+ quoted "en";
         "  }";
         "]"].

(** A file system that holds the input file and nothing else, and a
    [pickle.load] that rebuilds [root] from it. *)
Definition initial : state :=
  mkState (FS.mk ∅ {[ input default_args := "pickle" ]}) [].

Definition loads (root : value) (content : string) : exc + value := inr root.

(** The state [st] with the file system [fs'] and the events [evs] after
    its own. *)
Definition logged (st : state) (evs : list event) (fs' : FS.t string) : state :=
  mkState fs' (trace st ++ evs).

End FontLabels.

(** ** The tensor archive *)

Module Safetensors.

Inductive dtype : Type :=
| BOOL | U8 | I8 | I16 | I32 | I64 | F16 | BF16 | F32 | F64.

(** A tensor as the archive sees it: its element type, its shape and its
    contiguous little-endian element buffer. *)
Record tensor : Type := mkTensor
  { dtype_of : dtype;
    shape : list nat;
    data : list Byte.byte }.

(** One line of the header: [{dtype, shape, data_offsets: [begin, end]}]. *)
Record info : Type := mkInfo
  { i_dtype : dtype;
    i_shape : list nat;
    data_offsets : nat * nat }.

Record archive : Type := mkArchive
  { header : list (string * info);
    buffer : list Byte.byte }.

(** The header lines and the buffer for [tensors], the first tensor at
    [offset]. *)
Fixpoint layout (offset : nat) (tensors : list (string * tensor))
  : list (string * info) * list Byte.byte :=
  match tensors with
  | [] => ([], [])
  | (name, t) :: rest =>
      let stop := offset + length (data t) in
      let r := layout stop rest in
      ((name, mkInfo (dtype_of t) (shape t) (offset, stop)) :: r.1,
       data t ++ r.2)
  end.

(** Modelled from the spec: [safetensors.torch.save_file] belongs to the
    safetensors package and is not part of the repository. The archive is
    the one of section 6: a header listing, for each tensor name, its dtype,
    shape and byte range, followed by the raw element data of each tensor. *)
Definition serialize (tensors : gmap string tensor) : archive :=
  let r := layout 0 (map_to_list tensors) in
  mkArchive r.1 r.2.

Fixpoint find_info (name : string) (h : list (string * info)) : option info :=
  match h with
  | [] => None
  | (k, i) :: r => if bool_decide (k = name) then Some i else find_info name r
  end.

(** Modelled from the spec: how a reader of the archive (the weight loader
    of the inference runtime, not part of the repository) gets the tensor
    called [name]: the header line gives dtype and shape, and the byte range
    is cut out of the buffer. *)
Definition tensor_at (a : archive) (name : string) : option tensor :=
  match find_info name (header a) with
  | Some i =>
      let '(start, stop) := data_offsets i in
      Some (mkTensor (i_dtype i) (i_shape i)
              (take (stop - start) (drop start (buffer a))))
  | None => None
  end.

Definition names (a : archive) : list string := map fst (header a).

End Safetensors.

(** ** [scripts/convert_font_detection.py] *)

Module FontDetection.

Import FS Safetensors.

Definition DEFAULT_CKPT : string := "name=4x-epoch=84-step=1649340.ckpt".
Definition REPO_ID : string := "gyrojeff/YuzuMarker.FontDetection".

Record Args : Type := mkArgs
  { checkpoint : string;
    output : path }.

(** [parse_args], [home] being [Path.home()]. *)
Definition default_args (home : path) : Args :=
  {| checkpoint := DEFAULT_CKPT;
     output := home ++ [".cache"; "Koharu"; "models";
                        "yuzumarker-font-detection.safetensors"] |}.

(** A field of the deserialised checkpoint: a mapping from names to tensors,
    or any other object, of which only [len()] matters here. *)
Inductive field : Type :=
| Tensors (state_dict : gmap string tensor)
| Other (len : option nat).

(** A file is a tensor archive or bytes of some other kind. *)
Inductive file : Type :=
| Archive (a : archive)
| Foreign (bytes : string).

Inductive event : Type :=
| EvDownload (repo_id filename : string)
| EvLoad (p : path)
| EvPrint (line : string).

Record state : Type := mkState
  { fs : FS.t file;
    trace : list event }.

Definition on_fs (f : FS.t file -> exc + FS.t file) : prog state unit :=
  update (fun st =>
            match f (fs st) with
            | inl e => inl e
            | inr fs' => inr (mkState fs' (trace st))
            end).

Definition log (ev : event) : prog state unit :=
  modify (fun st => mkState (fs st) (trace st ++ [ev])).

Definition print (line : string) : prog state unit := log (EvPrint line).

Definition MissingStateDict : exc :=
  RuntimeError "Unexpected checkpoint format: missing state_dict".

Definition saving (n : nat) (p : path) : string :=
  "Saving " +:+ pretty n +:+ " tensors to " +:+ FS.show p.

Section main.

(** [hf_hub_download(repo_id, filename)]: the path of the checkpoint in the
    hub cache, which is a store of its own, or a retrieval error. *)
Variable hf_hub_download : string -> string -> exc + path.

(** [torch.load(path, map_location="cpu")] *)
Variable torch_load : path -> exc + gmap string field.

(** Modelled from the spec: [save_file(state_dict, str(p))] belongs to the
    safetensors package and is not part of the repository. It creates the
    archive of section 6 at [p]; a destination that cannot be created (it is
    a directory, or its directory is missing) is the write failure of
    section 7, which the package raises as an exception of its own. *)
Definition save_file (state_dict : gmap string tensor) (p : path) : prog state unit :=
  on_fs (fun fs =>
           if FS.is_dir fs p then inl (LibraryError "save_file: cannot create the file")
           else if FS.is_dir fs (FS.parent p)
                then inr (FS.put p (Archive (serialize state_dict)) fs)
                else inl (LibraryError "save_file: cannot create the file")).

Definition main (args : Args) : prog state unit :=
  (on_fs (FS.mkdir_parents (FS.parent (output args))) ;;;
   print ("Downloading " +:+ checkpoint args +:+ " from " +:+ REPO_ID +:+ " ...") ;;;
   log (EvDownload REPO_ID (checkpoint args)) ;;;
   ckpt_path <~ lift (hf_hub_download REPO_ID (checkpoint args)) ;;
   print ("Loaded checkpoint at " +:+ FS.show ckpt_path) ;;;
   log (EvLoad ckpt_path) ;;;
   state <~ lift (torch_load ckpt_path) ;;
   match state !! "state_dict" with
   | None => raise MissingStateDict
   | Some (Tensors state_dict) =>
       print (saving (size state_dict) (output args)) ;;;
       save_file state_dict (output args) ;;;
       print "Done."
   | Some (Other None) =>
       raise (TypeError "object has no len()")
   | Some (Other (Some n)) =>
       print (saving n (output args)) ;;;
       raise (LibraryError "save_file: expected a dict of [str, torch.Tensor]")
   end)%prog.

End main.

(** The events of the download and of the deserialisation, in the order
    [main] produces them. *)
Definition downloading (args : Args) : list event :=
  [EvPrint ("Downloading " +:+ checkpoint args +:+ " from " +:+ REPO_ID +:+ " ...");
   EvDownload REPO_ID (checkpoint args)].

Definition loading (ckpt_path : path) : list event :=
  [EvPrint ("Loaded checkpoint at " +:+ FS.show ckpt_path);
   EvLoad ckpt_path].

(** The checkpoint of the end-to-end example: [conv1.weight] of type
    f32[3,3,3,16] and [conv1.bias] of type f32[16]. *)
Definition conv1_weight : tensor :=
  mkTensor F32 [3; 3; 3; 16] (repeat Byte.x3f (4 * (3 * 3 * 3 * 16))).
Definition conv1_bias : tensor :=
  mkTensor F32 [16] (repeat Byte.x80 (4 * 16)).
Definition example_state_dict : gmap string tensor :=
  <[ "conv1.weight" := conv1_weight ]> (<[ "conv1.bias" := conv1_bias ]> ∅).
Definition example_checkpoint : gmap string field :=
  <[ "epoch" := Other None ]> (<[ "state_dict" := Tensors example_state_dict ]> ∅).
Definition headless_checkpoint : gmap string field :=
  <[ "epoch" := Other None ]> ∅.

Definition example_args : Args := mkArgs DEFAULT_CKPT ["models"; "font.safetensors"].
Definition example_download (repo_id filename : string) : exc + path :=
  inr ["hub"; filename].
Definition loads (state : gmap string field) (p : path) : exc + gmap string field :=
  inr state.
Definition old_file : file := Foreign "previous".
Definition initial : state :=
  mkState (FS.mk ∅ {[ output example_args := old_file ]}) [].

End FontDetection.

(** ** [scripts/cuda.py] *)

Module Cuda.

Import FS.

Definition PACKAGES : list string :=
  ["nvidia-cuda-runtime-cu12";
   "nvidia-cudnn-cu12";
   "nvidia-cublas-cu12";
   "nvidia-cufft-cu12"].

Record Args : Type := mkArgs { output : path }.

Definition default_args : Args := {| output := ["libs"] |}.

Inductive event : Type :=
| EvRun (cmd : list string)
| EvPrint (line : string).

Record state : Type := mkState
  { fs : FS.t string;
    trace : list event }.

Definition on_fs (f : FS.t string -> exc + FS.t string) : prog state unit :=
  update (fun st =>
            match f (fs st) with
            | inl e => inl e
            | inr fs' => inr (mkState fs' (trace st))
            end).

Definition log (ev : event) : prog state unit :=
  modify (fun st => mkState (fs st) (trace st ++ [ev])).

Definition print (line : string) : prog state unit := log (EvPrint line).

(** The commands started so far, oldest first. *)
Definition runs (tr : list event) : list (list string) :=
  omap (fun ev => match ev with EvRun cmd => Some cmd | EvPrint _ => None end) tr.

(** ["nvidia" in s] *)
Fixpoint contains (needle s : string) : bool :=
  String.prefix needle s ||
  match s with
  | EmptyString => false
  | String _ r => contains needle r
  end.

(** [lib.name] *)
Definition name (lib : path) : string := List.last lib "".

(** The test of the copy loop on a library: ["nvidia" in str(lib)]. *)
Definition wanted (lib : path) : bool := contains "nvidia" (FS.show lib).

Section main.

(** [sys.platform == "win32"], [sys.executable] and the directory that
    [tempfile.TemporaryDirectory()] hands out; the directory lives outside
    the modelled file system and is removed when the [with] block is left. *)
Variable win32 : bool.
Variable executable : string.
Variable tmp : path.

(** The exit status of a command started with [subprocess.run]. *)
Variable returncode : list string -> Z.

(** [next((venv / "lib").glob("python3.*"))], which raises [StopIteration]
    on an empty glob, and [site.glob(pattern)] with the content of each
    match, both on the virtual environment as the installs left it. *)
Variable python_lib : exc + path.
Variable glob : path -> string -> list (path * string).

(** [subprocess.run(cmd, check=True)] *)
Definition run (cmd : list string) : prog state unit :=
  (log (EvRun cmd) ;;;
   if (returncode cmd =? 0)%Z then ret tt
   else raise (CalledProcessError cmd (returncode cmd)))%prog.

Definition pip_install (pip : string) (pkg : string) : list string :=
  [pip; "install"; "-q"; pkg].

(** [for pkg in PACKAGES: ...] *)
Fixpoint install (pip : string) (pkgs : list string) : prog state unit :=
  match pkgs with
  | [] => ret tt
  | pkg :: rest =>
      (print ("Installing " +:+ pkg +:+ "...") ;;;
       run (pip_install pip pkg) ;;;
       install pip rest)%prog
  end.

(** [shutil.copy2(lib, output)]: the copy takes the name of [lib] inside
    the directory [output] and replaces a file of that name. *)
Definition copy2 (content : string) (lib output : path) : prog state unit :=
  on_fs (fun fs => inr (FS.put (output ++ [name lib]) content fs)).

(** [for lib in site.glob(pattern): ...] *)
Fixpoint copy_libs (libs : list (path * string)) (output : path) : prog state unit :=
  match libs with
  | [] => ret tt
  | (lib, content) :: rest =>
      ((if contains "nvidia" (FS.show lib)
        then copy2 content lib output ;;; print ("Copied " +:+ name lib)
        else ret tt) ;;;
       copy_libs rest output)%prog
  end.

Definition venv : path := tmp ++ ["venv"].

Definition pip : string :=
  FS.show (venv ++ (if win32 then ["Scripts"; "pip.exe"] else ["bin"; "pip"])).

Definition create_venv : list string := [executable; "-m"; "venv"; FS.show venv].

Definition main (args : Args) : prog state unit :=
  (on_fs (FS.mkdir (output args)) ;;;
   run create_venv ;;;
   install pip PACKAGES ;;;
   libs <~ (if win32
            then ret (glob (venv ++ ["Lib"; "site-packages"]) "**/*.dll")
            else
              lib <~ lift python_lib ;;
              ret (glob (lib ++ ["site-packages"]) "**/*.so*")) ;;
   copy_libs libs (output args) ;;;
   print (Json.newline +:+ "Done! Libraries in " +:+ FS.show (output args)))%prog.

(** The libraries [main] goes through once the packages are installed, or
    the exception of the empty glob. *)
Definition site_libs : exc + list (path * string) :=
  if win32
  then inr (glob (venv ++ ["Lib"; "site-packages"]) "**/*.dll")
  else
    match python_lib with
    | inl e => inl e
    | inr lib => inr (glob (lib ++ ["site-packages"]) "**/*.so*")
    end.

Definition done_line (output : path) : string :=
  Json.newline +:+ "Done! Libraries in " +:+ FS.show output.

End main.

(** A run in which the third package cannot be installed. *)
Definition cublas_fails (cmd : list string) : Z :=
  if bool_decide (List.last cmd "" = "nvidia-cublas-cu12") then 1%Z else 0%Z.

Definition example_glob (site : path) (pattern : string) : list (path * string) :=
  [(site ++ ["nvidia"; "cudnn"; "lib"; "libcudnn.so.9"], "cudnn");
   (site ++ ["pip"; "_vendor"; "lib.so"], "other")].

Definition initial : state := mkState (FS.mk ∅ ∅) [].

(** Runs in which every command succeeds, or none does; a virtual
    environment of Python 3.11; and a glob that lists two libraries of the
    same name. *)
Definition all_succeed (cmd : list string) : Z := 0%Z.
Definition all_fail (cmd : list string) : Z := 1%Z.
Definition python311 : exc + path := inr ["tmp"; "venv"; "lib"; "python3.11"].
Definition twice_glob (site : path) (pattern : string) : list (path * string) :=
  [(site ++ ["nvidia"; "cublas"; "lib"; "libcublas.so.12"], "first");
   (site ++ ["nvidia"; "extra"; "libcublas.so.12"], "second")].

End Cuda.

(** * Proofs *)

(** ** Facts about the file system *)

Module FSFacts.

Import FS.

Section facts.
Context {C : Type}.
Implicit Types (fs : FS.t C) (p : path).

Lemma is_dir_true fs p : is_dir fs p = true <-> p = [] \/ p ∈ dirs fs.
Proof. unfold is_dir. apply bool_decide_eq_true. Qed.

Lemma is_file_false fs p : is_file fs p = false <-> files fs !! p = None.
Proof.
  unfold is_file. rewrite bool_decide_eq_false, <- eq_None_not_Some. tauto.
Qed.

Lemma is_file_true fs p : is_file fs p = true <-> is_Some (files fs !! p).
Proof. unfold is_file. apply bool_decide_eq_true. Qed.

Lemma add_dir_files p fs : files (add_dir p fs) = files fs.
Proof. unfold add_dir. destruct (is_dir fs p); reflexivity. Qed.

Lemma add_dir_dirs p fs : dirs fs ⊆ dirs (add_dir p fs).
Proof. unfold add_dir. destruct (is_dir fs p); simpl; set_solver. Qed.

Lemma add_dir_is_dir p fs : is_dir (add_dir p fs) p = true.
Proof.
  unfold add_dir. destruct (is_dir fs p) eqn:E; [exact E|].
  apply is_dir_true. right. simpl. set_solver.
Qed.

Lemma add_dir_id p fs : is_dir fs p = true -> add_dir p fs = fs.
Proof. intros E. unfold add_dir. rewrite E. reflexivity. Qed.

Lemma mkdir_from_files base rest fs fs' :
  mkdir_from base rest fs = inr fs' -> files fs' = files fs.
Proof.
  revert base fs. induction rest as [|c rest IH]; intros base fs H; simpl in H.
  - congruence.
  - destruct (is_file fs (base ++ [c])); [discriminate|].
    apply IH in H. rewrite H. apply add_dir_files.
Qed.

Lemma mkdir_from_dirs base rest fs fs' :
  mkdir_from base rest fs = inr fs' -> dirs fs ⊆ dirs fs'.
Proof.
  revert base fs. induction rest as [|c rest IH]; intros base fs H; simpl in H.
  - inversion H. set_solver.
  - destruct (is_file fs (base ++ [c])); [discriminate|].
    apply IH in H. pose proof (add_dir_dirs (base ++ [c]) fs). set_solver.
Qed.

(** Directories that were created stay: the same call on a later state,
    with at least these directories and the same files along the way,
    changes nothing. *)
Lemma mkdir_from_again base rest fs fs' :
  mkdir_from base rest fs = inr fs' ->
  forall fs2,
    dirs fs' ⊆ dirs fs2 ->
    (forall d, length d <= length base + length rest -> files fs2 !! d = files fs !! d) ->
    mkdir_from base rest fs2 = inr fs2.
Proof.
  revert base fs. induction rest as [|c rest IH]; intros base fs H fs2 Hd Hf; simpl in *.
  - reflexivity.
  - destruct (is_file fs (base ++ [c])) eqn:E; [discriminate|].
    assert (E2 : is_file fs2 (base ++ [c]) = false).
    { apply is_file_false. rewrite Hf; [by apply is_file_false|].
      rewrite length_app. simpl. lia. }
    rewrite E2.
    assert (D : is_dir fs2 (base ++ [c]) = true).
    { apply is_dir_true. right. apply Hd.
      apply (mkdir_from_dirs _ _ _ _ H).
      pose proof (add_dir_is_dir (base ++ [c]) fs) as A.
      apply is_dir_true in A. destruct A as [A|A]; [|exact A].
      destruct base; discriminate. }
    rewrite (add_dir_id _ _ D).
    eapply IH; [exact H|exact Hd|].
    intros d Hl. rewrite add_dir_files. apply Hf.
    rewrite length_app in Hl. simpl in Hl. lia.
Qed.

(** After the call every component of the path is a directory. *)
Lemma mkdir_from_is_dir base rest fs fs' :
  mkdir_from base rest fs = inr fs' ->
  is_dir fs base = true ->
  is_dir fs' (base ++ rest) = true.
Proof.
  revert base fs. induction rest as [|c rest IH]; intros base fs H Hb; simpl in H.
  - inversion H; subst. by rewrite app_nil_r.
  - destruct (is_file fs (base ++ [c])); [discriminate|].
    apply IH in H; [|apply add_dir_is_dir].
    by rewrite <- app_assoc in H.
Qed.

Lemma mkdir_parents_is_dir p fs fs' :
  mkdir_parents p fs = inr fs' -> is_dir fs' p = true.
Proof.
  intros H. apply (mkdir_from_is_dir [] p fs fs' H).
  apply is_dir_true. by left.
Qed.

Lemma mkdir_parents_files p fs fs' :
  mkdir_parents p fs = inr fs' -> files fs' = files fs.
Proof. apply mkdir_from_files. Qed.

Lemma mkdir_files p fs fs' : mkdir p fs = inr fs' -> files fs' = files fs.
Proof.
  unfold mkdir. intros H.
  destruct (is_dir fs p); [congruence|].
  destruct (is_file fs p); [discriminate|].
  destruct (is_dir fs (parent p)); [|discriminate].
  inversion H. apply add_dir_files.
Qed.

Lemma open_w_inv (e : C) p fs fs' :
  open_w e p fs = inr fs' ->
  is_dir fs p = false /\ is_dir fs (parent p) = true /\ fs' = put p e fs.
Proof.
  unfold open_w. intros H.
  destruct (is_dir fs p); [discriminate|].
  destruct (is_dir fs (parent p)); [|discriminate].
  inversion H. auto.
Qed.

Lemma parent_length p : p <> [] -> length p = S (length (parent p)).
Proof.
  intros H. unfold parent.
  destruct (exists_last H) as (q & c & ->).
  rewrite removelast_last, length_app. simpl. lia.
Qed.

End facts.

End FSFacts.

(** ** The label extractor *)

Module FontLabelsProofs.

Import FS FSFacts FontLabels.

#[local] Arguments Json.iterencode : simpl never.

(** *** The loop *)

Lemma getattr_field item name :
  getattr item name PyNone = default PyNone (field item name).
Proof. destruct item; reflexivity. Qed.

(** The loop appends, in the order of the source, the label of every record
    the spec keeps. *)
Lemma collect_spec data entries :
  collect data entries = entries ++ omap label_of_record data.
Proof.
  revert entries. induction data as [|item rest IH]; intros entries; simpl.
  - by rewrite app_nil_r.
  - unfold label_of_record. rewrite !getattr_field.
    destruct (field item "path") as [[]|]; simpl; rewrite IH;
      first [reflexivity | by rewrite <- app_assoc].
Qed.

Lemma label_of_record_path item e :
  label_of_record item = Some e ->
  getattr item "path" PyNone <> PyNone /\
  e = PyDict [("path", getattr item "path" PyNone);
              ("language", getattr item "language" PyNone)].
Proof.
  unfold label_of_record. rewrite !getattr_field.
  destruct (field item "path") as [[]|]; simpl; intros H; inversion H; split;
    first [discriminate | reflexivity].
Qed.

Lemma label_of_record_kept item :
  getattr item "path" PyNone <> PyNone ->
  label_of_record item =
    Some (PyDict [("path", getattr item "path" PyNone);
                  ("language", getattr item "language" PyNone)]).
Proof.
  unfold label_of_record. rewrite !getattr_field.
  destruct (field item "path") as [[]|]; simpl; intros H; congruence.
Qed.

(** *** The run of [main], step by step *)

Section run.

Variable unpickle : string -> exc + value.

Lemma extract_run args st :
  main unpickle args st =
    if negb (exists_ (fs st) (input args))
    then (Exited ("Input file not found: " +:+ FS.show (input args)), st)
    else
      match FS.read (input args) (fs st) with
      | inl e => (Raised e, st)
      | inr content =>
          let load := [EvPickleLoad (input args)] in
          match unpickle content with
          | inl e => (Raised e, logged st load (fs st))
          | inr data =>
              match iter data with
              | inl e => (Raised e, logged st load (fs st))
              | inr items =>
                  let entries := collect items [] in
                  match mkdir_parents (parent (output args)) (fs st) with
                  | inl e => (Raised e, logged st load (fs st))
                  | inr fs1 =>
                      match open_w "" (output args) fs1 with
                      | inl e => (Raised e, logged st load fs1)
                      | inr fs2 =>
                          let r := Json.iterencode (PyList entries) 0 in
                          let fs3 := put (output args) r.1 fs2 in
                          match r.2 with
                          | Some e => (Raised e, logged st load fs3)
                          | None =>
                              (Returned tt,
                               logged st
                                 (load ++ [EvPrint (wrote (length entries) (output args))])
                                 fs3)
                          end
                      end
                  end
              end
          end
      end.
Proof.
  unfold main, pickle_load, json_dump, print, log, on_fs, logged.
  unfold bind, gets, modify, update, lift, ret, raise, sys_exit. simpl.
  destruct (exists_ (fs st) (input args)); simpl; [|reflexivity].
  destruct (FS.read (input args) (fs st)) as [e|content]; simpl; [reflexivity|].
  destruct (unpickle content) as [e|data]; simpl; [reflexivity|].
  destruct (iter data) as [e|items]; simpl; [reflexivity|].
  destruct (mkdir_parents (parent (output args)) (fs st)) as [e|fs1]; simpl; [reflexivity|].
  destruct (open_w "" (output args) fs1) as [e|fs2]; simpl; [reflexivity|].
  destruct (Json.iterencode (PyList (collect items [])) 0) as [text [e|]]; simpl.
  - reflexivity.
  - by rewrite <- app_assoc.
Qed.

Lemma extract_returned_inv args st st1 :
  main unpickle args st = (Returned tt, st1) ->
  exists content root items fs1,
    files (fs st) !! input args = Some content /\
    unpickle content = inr root /\
    iter root = inr items /\
    mkdir_parents (parent (output args)) (fs st) = inr fs1 /\
    is_dir fs1 (output args) = false /\
    is_dir fs1 (parent (output args)) = true /\
    (Json.iterencode (PyList (collect items [])) 0).2 = None /\
    fs st1 = put (output args) (Json.iterencode (PyList (collect items [])) 0).1
               (put (output args) "" fs1).
Proof.
  rewrite extract_run. intros H.
  destruct (exists_ (fs st) (input args)); simpl in H; [|discriminate].
  unfold FS.read in H.
  destruct (files (fs st) !! input args) as [content|] eqn:Hc;
    [|destruct (is_dir (fs st) (input args)); discriminate].
  destruct (unpickle content) as [e|root] eqn:Hu; [discriminate|].
  destruct (iter root) as [e|items] eqn:Hi; [discriminate|].
  destruct (mkdir_parents (parent (output args)) (fs st)) as [e|fs1] eqn:Hm; [discriminate|].
  destruct (open_w "" (output args) fs1) as [e|fs2] eqn:Ho; [discriminate|].
  apply open_w_inv in Ho as (Hd & Hp & ->).
  simpl in H.
  destruct ((Json.iterencode (PyList (collect items [])) 0).2) eqn:Hj; [discriminate|].
  inversion H; subst st1; clear H. simpl.
  exists content, root, items, fs1. auto 10.
Qed.

End run.

(** *** The claims *)

Section claims.

Variable unpickle : string -> exc + value.

(** C7. If the input path does not exist, [main] leaves through
    [sys.exit] with the message naming the input, hence with a non-zero
    status; the state is the one it started in: [pickle.load] was not
    called and no file or directory was created. *)
Theorem c7_missing_input_exits_first args st :
  exists_ (fs st) (input args) = false ->
  main unpickle args st
    = (Exited ("Input file not found: " +:+ FS.show (input args)), st)
  /\ exit_status (fst (main unpickle args st)) <> 0%Z.
Proof.
  intros H. rewrite extract_run, H. simpl. split; [reflexivity|discriminate].
Qed.

(** C6 (amended). If the root of the graph is not iterable, [main] ends
    with the [TypeError] of the [for] statement, hence with a non-zero
    status, after [pickle.load] and before anything is created: the file
    system is the one the run started in. *)
Theorem c6_not_iterable_raises args st content root e :
  files (fs st) !! input args = Some content ->
  unpickle content = inr root ->
  iter root = inl e ->
  main unpickle args st
    = (Raised e, logged st [EvPickleLoad (input args)] (fs st))
  /\ (exists msg, e = TypeError msg)
  /\ exit_status (fst (main unpickle args st)) <> 0%Z.
Proof.
  intros Hc Hu Hi.
  assert (Hx : exists_ (fs st) (input args) = true).
  { unfold exists_. apply orb_true_iff. right. apply is_file_true. eauto. }
  rewrite extract_run, Hx. unfold FS.read. rewrite Hc, Hu, Hi. simpl.
  repeat split; [|discriminate].
  destruct root; simpl in Hi; inversion Hi; eauto.
Qed.

(** An entry is in the output exactly when it is the dict of the [path]
    and the [language] of an item whose [path] field is present and not
    [None]. *)
Lemma elem_of_collect items (e : value) :
  e ∈ collect items [] <->
  exists item path,
    item ∈ items /\
    field item "path" = Some path /\
    path <> PyNone /\
    e = PyDict [("path", path);
                ("language", default PyNone (field item "language"))].
Proof.
  rewrite collect_spec. simpl. rewrite list_elem_of_omap. split.
  - intros (item & Hin & Hl). exists item. unfold label_of_record in Hl.
    destruct (field item "path") as [path|]; [|discriminate].
    exists path. destruct path; inversion Hl; repeat split; auto; discriminate.
  - intros (item & path & Hin & Hf & Hp & ->). exists item. split; [exact Hin|].
    unfold label_of_record. rewrite Hf. by destruct path.
Qed.

(** C8. Reading the run backwards from a normal return: the output file
    holds the JSON text of the labels of the kept records, in the order of
    the source sequence; every run that returns on an input file with the
    same bytes leaves the same bytes at the output; and, the input being a
    file other than the output, running [main] again returns and leaves the
    output file as it is. *)
Theorem c8_deterministic_order_preserving args st st1 :
  input args <> output args ->
  main unpickle args st = (Returned tt, st1) ->
  (exists content root items,
      files (fs st) !! input args = Some content /\
      unpickle content = inr root /\
      iter root = inr items /\
      files (fs st1) !! output args
        = Some (Json.iterencode (PyList (omap label_of_record items)) 0).1) /\
  (forall st' st1',
      files (fs st') !! input args = files (fs st) !! input args ->
      main unpickle args st' = (Returned tt, st1') ->
      files (fs st1') !! output args = files (fs st1) !! output args) /\
  (exists st2,
      main unpickle args st1 = (Returned tt, st2) /\
      files (fs st2) !! output args = files (fs st1) !! output args).
Proof.
  intros Hne H.
  destruct (extract_returned_inv _ _ _ _ H)
    as (content & root & items & fs1 & Hc & Hu & Hi & Hm & Hd & Hp & Hj & Hfs).
  assert (Hout : files (fs st1) !! output args
                 = Some (Json.iterencode (PyList (collect items [])) 0).1).
  { rewrite Hfs. simpl. apply lookup_insert_eq. }
  split; [|split].
  - exists content, root, items. repeat split; try assumption.
    rewrite Hout, collect_spec. reflexivity.
  - intros st' st1' Hsame H'.
    destruct (extract_returned_inv _ _ _ _ H')
      as (content' & root' & items' & fs1' & Hc' & Hu' & Hi' & _ & _ & _ & _ & Hfs').
    rewrite Hsame, Hc in Hc'. inversion Hc'; subst content'.
    rewrite Hu in Hu'. inversion Hu'; subst root'.
    rewrite Hi in Hi'. inversion Hi'; subst items'.
    rewrite Hout, Hfs'. simpl. apply lookup_insert_eq.
  - assert (Hnil : output args <> []).
    { intros E. rewrite E in Hd. discriminate. }
    assert (Hfiles : forall d, d <> output args ->
                               files (fs st1) !! d = files (fs st) !! d).
    { intros d Hdo. rewrite Hfs. simpl.
      rewrite !lookup_insert_ne by congruence.
      by rewrite (mkdir_from_files _ _ _ _ Hm). }
    assert (Hdirs : dirs (fs st1) = dirs fs1) by (rewrite Hfs; reflexivity).
    assert (Hc1 : files (fs st1) !! input args = Some content).
    { rewrite Hfiles by exact Hne. exact Hc. }
    assert (Hx : exists_ (fs st1) (input args) = true).
    { unfold exists_. apply orb_true_iff. right. apply is_file_true. eauto. }
    assert (Hm1 : mkdir_parents (parent (output args)) (fs st1) = inr (fs st1)).
    { unfold mkdir_parents. eapply mkdir_from_again; [exact Hm| |].
      - rewrite Hdirs. reflexivity.
      - intros d Hl. apply Hfiles. intros ->.
        rewrite (parent_length _ Hnil) in Hl. simpl in Hl. lia. }
    assert (Ho1 : open_w "" (output args) (fs st1)
                  = inr (put (output args) "" (fs st1))).
    { unfold open_w, is_dir in *. rewrite Hdirs, Hd, Hp. reflexivity. }
    rewrite extract_run, Hx. unfold FS.read. rewrite Hc1, Hu, Hi, Hm1, Ho1. simpl.
    rewrite Hj. eexists. split; [reflexivity|].
    simpl. rewrite Hout. apply lookup_insert_eq.
Qed.

Lemma collect_length items : length (collect items []) <= length items.
Proof.
  rewrite collect_spec. simpl.
  induction items as [|item rest IH]; csimpl; [lia|].
  destruct (label_of_record item); simpl; lia.
Qed.

End claims.

(** C2. The loop is the spec's rule applied to each record in turn: a
    record whose [path] field is absent or null is dropped, any other is
    kept as the dict of its [path] and of its [language], null when the
    field is absent. On the graph of three records of the example the
    entries collected are [{path: a.ttf, language: en}] and
    [{path: b.ttf, language: null}], in this order, and [main] writes
    their JSON text and reports two labels. *)
Theorem c2_records_kept_or_dropped :
  (forall items : list value, collect items [] = omap label_of_record items) /\
  (forall item,
      (field item "path" = None \/ field item "path" = Some PyNone ->
       label_of_record item = None) /\
      (forall path,
          field item "path" = Some path -> path <> PyNone ->
          label_of_record item
          = Some (PyDict [("path", path);
                          ("language", default PyNone (field item "language"))]))) /\
  (exists items,
      iter example_graph = inr items /\
      collect items []
      = [PyDict [("path", PyStr "a.ttf"); ("language", PyStr "en")];
         PyDict [("path", PyStr "b.ttf"); ("language", PyNone)]]) /\
  (let r := main (loads example_graph) default_args initial in
   r.1 = Returned tt /\
   files (fs r.2) !! output default_args = Some example_text /\
   trace r.2 = [EvPickleLoad (input default_args);
                EvPrint "Wrote 2 labels to yuzumarker-font-labels.json"]).
Proof.
  split; [|split; [|split]].
  - intros items. by rewrite collect_spec.
  - intros item. unfold label_of_record. split.
    + intros [->| ->]; reflexivity.
    + intros path -> Hp. by destruct path.
  - eexists. split; reflexivity.
  - vm_compute. repeat split.
Qed.

(** C5, as the claim states it, fails: a record whose [path] is the empty
    string is kept, and its entry is not a [LabelEntry] with a non-empty
    [path]. *)
Lemma c5_counterexample :
  collect [DSFont (PyStr "") (PyStr "en")] []
    = [PyDict [("path", PyStr ""); ("language", PyStr "en")]] /\
  ~ Forall (fun e => label_entry e = true)
      (collect [DSFont (PyStr "") (PyStr "en")] []).
Proof.
  split; [reflexivity|].
  intros H. apply Forall_cons in H as [H _]. vm_compute in H. discriminate.
Qed.

(** C5 (amended). Every entry of the output is the dict
    [{path: p, language: l}] of a source record whose [path] field is
    present with a value [p] that is not null, [l] being the record's
    [language], null when that field is absent; the output is not longer
    than the source. *)
Theorem c5_entries_have_non_null_path (items : list value) :
  Forall (fun e =>
            exists item path,
              item ∈ items /\
              field item "path" = Some path /\
              path <> PyNone /\
              e = PyDict [("path", path);
                          ("language", default PyNone (field item "language"))])
    (collect items [])
  /\ length (collect items []) <= length items.
Proof.
  split; [|apply collect_length].
  apply Forall_forall. intros e He. by apply elem_of_collect.
Qed.

(** C10. The loop keeps a record exactly when its [path] is not [None]:
    the entries of the output are the dicts [{path: p, language: l}] of the
    items whose [path] field is present with a value [p] other than
    [None]. A record whose [path] is the empty string, or the integer 7, is
    kept with that value as its [path], and [main] writes the empty string
    out as the record's [path]. *)
Theorem c10_keep_test_is_path_not_none :
  (forall items e,
      e ∈ collect items [] <->
      exists item path,
        item ∈ items /\
        field item "path" = Some path /\
        path <> PyNone /\
        e = PyDict [("path", path);
                    ("language", default PyNone (field item "language"))]) /\
  collect [DSFont (PyStr "") (PyStr "en")] []
    = [PyDict [("path", PyStr ""); ("language", PyStr "en")]] /\
  collect [DSFont (PyInt 7) PyNone] []
    = [PyDict [("path", PyInt 7); ("language", PyNone)]] /\
  (let r := main (loads (PyList [DSFont (PyStr "") (PyStr "en")])) default_args initial in
   r.1 = Returned tt /\
   files (fs r.2) !! output default_args = Some empty_path_text).
Proof.
  split; [exact elem_of_collect|].
  vm_compute. repeat split.
Qed.

(** C6, as the claim states it, fails: a root that is a string is no
    sequence of records, yet [main] returns normally and writes the empty
    list. *)
Lemma c6_counterexample :
  let r := main (loads (PyStr "ab")) default_args initial in
  record_sequence (PyStr "ab") = false /\
  r.1 = Returned tt /\
  exit_status r.1 = 0%Z /\
  files (fs r.2) !! output default_args = Some "[]".
Proof. vm_compute. repeat split. Qed.

Lemma c6_witness :
  files (fs initial) !! input default_args = Some "pickle" /\
  main (loads (PyInt 3)) default_args initial
    = (Raised (not_iterable "int"),
       logged initial [EvPickleLoad (input default_args)] (fs initial)).
Proof.
  split; [reflexivity|].
  apply (c6_not_iterable_raises (loads (PyInt 3)) default_args initial
           "pickle" (PyInt 3) (not_iterable "int")); reflexivity.
Defined.

Lemma c7_witness :
  exists_ (fs initial) ["missing.bin"] = false /\
  main (loads example_graph) (mkArgs ["missing.bin"] ["labels.json"]) initial
    = (Exited "Input file not found: missing.bin", initial).
Proof.
  split; [reflexivity|].
  apply (c7_missing_input_exits_first (loads example_graph)
           (mkArgs ["missing.bin"] ["labels.json"]) initial).
  reflexivity.
Defined.

Lemma c8_witness :
  input default_args <> output default_args /\
  exists st2,
    main (loads example_graph) default_args
      (main (loads example_graph) default_args initial).2 = (Returned tt, st2) /\
    files (fs st2) !! output default_args
      = files (fs (main (loads example_graph) default_args initial).2)
          !! output default_args.
Proof.
  assert (Hne : input default_args <> output default_args) by discriminate.
  split; [exact Hne|].
  apply (c8_deterministic_order_preserving (loads example_graph)
           default_args initial _ Hne).
  vm_compute. reflexivity.
Defined.

End FontLabelsProofs.

(** ** The tensor archive and its converter *)

Module SafetensorsProofs.

Import Safetensors.

Lemma layout_names offset tensors :
  map fst (layout offset tensors).1 = map fst tensors.
Proof.
  revert offset. induction tensors as [|[name t] rest IH]; intros offset; simpl.
  - reflexivity.
  - by rewrite IH.
Qed.

Lemma find_info_None name h : name ∉ map fst h -> find_info name h = None.
Proof.
  induction h as [|[k i] r IH]; simpl; intros H; [reflexivity|].
  rewrite not_elem_of_cons in H. destruct H as [Hk Hr].
  rewrite bool_decide_eq_false_2 by congruence. by apply IH.
Qed.

(** Reading [name] back from the lines and bytes laid out after a prefix of
    [offset] bytes gives the tensor stored under that name. *)
Lemma layout_read tensors : forall offset (pre : list Byte.byte) name t,
  length pre = offset ->
  NoDup (map fst tensors) ->
  (name, t) ∈ tensors ->
  tensor_at (mkArchive (layout offset tensors).1
               (pre ++ (layout offset tensors).2)) name = Some t.
Proof.
  induction tensors as [|[k t0] rest IH]; intros offset pre name t Hpre Hnd Hin.
  - by apply elem_of_nil in Hin.
  - simpl in Hnd. apply NoDup_cons in Hnd as [Hk Hnd].
    unfold tensor_at. simpl.
    destruct (bool_decide (k = name)) eqn:E.
    + apply bool_decide_eq_true in E. subst k.
      assert (t = t0) as ->.
      { apply elem_of_cons in Hin as [Hin|Hin]; [congruence|].
        exfalso. apply Hk. apply list_elem_of_fmap. by exists (name, t). }
      simpl. replace (offset + length (data t0) - offset) with (length (data t0)) by lia.
      rewrite <- Hpre, drop_app_length, take_app_length.
      by destruct t0.
    + apply bool_decide_eq_false in E.
      apply elem_of_cons in Hin as [Hin|Hin]; [congruence|].
      specialize (IH (offset + length (data t0)) (pre ++ data t0) name t).
      unfold tensor_at in IH. simpl in IH. rewrite <- app_assoc in IH.
      apply IH; [rewrite length_app; lia|exact Hnd|exact Hin].
Qed.

(** The archive of a mapping has one line per name of the mapping, and
    reading a name back gives the tensor of the mapping, dtype, shape and
    bytes. *)
Lemma serialize_length state_dict :
  length (header (serialize state_dict)) = size state_dict.
Proof.
  unfold serialize. simpl.
  rewrite <- (length_map fst), layout_names, length_map.
  apply length_map_to_list.
Qed.

Lemma serialize_names state_dict :
  names (serialize state_dict) = map fst (map_to_list state_dict).
Proof. unfold names, serialize. simpl. apply layout_names. Qed.

Lemma serialize_NoDup state_dict : NoDup (names (serialize state_dict)).
Proof. rewrite serialize_names. apply NoDup_fst_map_to_list. Qed.

Lemma serialize_elem_of state_dict name :
  name ∈ names (serialize state_dict) <-> is_Some (state_dict !! name).
Proof.
  rewrite serialize_names. rewrite list_elem_of_fmap. split.
  - intros ([k t] & -> & Hin). apply elem_of_map_to_list in Hin. eauto.
  - intros [t Ht]. exists (name, t). split; [reflexivity|].
    by apply elem_of_map_to_list.
Qed.

Lemma serialize_read state_dict name :
  tensor_at (serialize state_dict) name = state_dict !! name.
Proof.
  destruct (state_dict !! name) as [t|] eqn:E.
  - apply elem_of_map_to_list in E.
    apply (layout_read _ 0 [] name t eq_refl); [apply NoDup_fst_map_to_list|exact E].
  - unfold tensor_at. rewrite find_info_None; [reflexivity|].
    change (map fst (header (serialize state_dict))) with (names (serialize state_dict)).
    rewrite serialize_elem_of, E. by intros [? ?].
Qed.

End SafetensorsProofs.

Module FontDetectionProofs.

Import FS FSFacts Safetensors SafetensorsProofs FontDetection.

Section claims.

Variable hf_hub_download : string -> string -> exc + path.
Variable torch_load : path -> exc + gmap string field.

Abbreviation run := (main hf_hub_download torch_load).

(** The run of [main], step by step. *)
Lemma convert_run args st :
  run args st =
    match mkdir_parents (parent (output args)) (fs st) with
    | inl e => (Raised e, st)
    | inr fs1 =>
        let tr1 := (trace st
                      ++ [EvPrint ("Downloading " +:+ checkpoint args +:+ " from "
                                   +:+ REPO_ID +:+ " ...")])
                     ++ [EvDownload REPO_ID (checkpoint args)] in
        match hf_hub_download REPO_ID (checkpoint args) with
        | inl e => (Raised e, mkState fs1 tr1)
        | inr ckpt_path =>
            let tr2 := (tr1 ++ [EvPrint ("Loaded checkpoint at " +:+ FS.show ckpt_path)])
                         ++ [EvLoad ckpt_path] in
            match torch_load ckpt_path with
            | inl e => (Raised e, mkState fs1 tr2)
            | inr state =>
                match state !! "state_dict" with
                | None => (Raised MissingStateDict, mkState fs1 tr2)
                | Some (Tensors state_dict) =>
                    let tr3 := tr2 ++ [EvPrint (saving (size state_dict) (output args))] in
                    if is_dir fs1 (output args)
                    then (Raised (LibraryError "save_file: cannot create the file"),
                          mkState fs1 tr3)
                    else if is_dir fs1 (parent (output args))
                         then (Returned tt,
                               mkState (put (output args) (Archive (serialize state_dict)) fs1)
                                 (tr3 ++ [EvPrint "Done."]))
                         else (Raised (LibraryError "save_file: cannot create the file"),
                               mkState fs1 tr3)
                | Some (Other None) =>
                    (Raised (TypeError "object has no len()"), mkState fs1 tr2)
                | Some (Other (Some n)) =>
                    (Raised (LibraryError "save_file: expected a dict of [str, torch.Tensor]"),
                     mkState fs1 (tr2 ++ [EvPrint (saving n (output args))]))
                end
            end
        end
    end.
Proof.
  unfold main, save_file, print, log, on_fs.
  unfold bind, modify, update, lift, ret, raise. simpl.
  destruct (mkdir_parents (parent (output args)) (fs st)) as [e|fs1]; simpl; [reflexivity|].
  destruct (hf_hub_download REPO_ID (checkpoint args)) as [e|ckpt_path]; simpl; [reflexivity|].
  destruct (torch_load ckpt_path) as [e|state]; simpl; [reflexivity|].
  destruct (state !! "state_dict") as [[sd|[n|]]|]; simpl; try reflexivity.
  destruct (is_dir fs1 (output args)); simpl; [reflexivity|].
  destruct (is_dir fs1 (parent (output args))); reflexivity.
Qed.

(** C3. When the deserialised checkpoint has no [state_dict] key, [main]
    raises the [RuntimeError] that reports the missing weight mapping, hence
    ends with a non-zero status, and the files are those the run started
    with: nothing is written at the destination and a file that was there
    is left as it was. *)
Theorem c3_missing_state_dict_fails_before_write args st fs1 ckpt_path state :
  mkdir_parents (parent (output args)) (fs st) = inr fs1 ->
  hf_hub_download REPO_ID (checkpoint args) = inr ckpt_path ->
  torch_load ckpt_path = inr state ->
  state !! "state_dict" = None ->
  (run args st).1 = Raised MissingStateDict /\
  exit_status (run args st).1 <> 0%Z /\
  files (fs (run args st).2) = files (fs st) /\
  files (fs (run args st).2) !! output args = files (fs st) !! output args.
Proof.
  intros Hm Hd Hl Hs.
  rewrite convert_run, Hm, Hd, Hl, Hs. simpl.
  rewrite (mkdir_parents_files _ _ _ Hm).
  repeat split. discriminate.
Qed.

(** C1. For a checkpoint whose [state_dict] is a mapping of N named
    tensors, and a destination that is not a directory, [main] returns and
    the file at the destination is the archive of the mapping: its header
    has N lines, under pairwise distinct names that are exactly the keys of
    the mapping, and reading a name back gives the tensor of the mapping
    with its dtype, its shape and its bytes. *)
Theorem c1_archive_holds_state_dict args st fs1 ckpt_path state state_dict :
  mkdir_parents (parent (output args)) (fs st) = inr fs1 ->
  is_dir fs1 (output args) = false ->
  hf_hub_download REPO_ID (checkpoint args) = inr ckpt_path ->
  torch_load ckpt_path = inr state ->
  state !! "state_dict" = Some (Tensors state_dict) ->
  exists a,
    (run args st).1 = Returned tt /\
    files (fs (run args st).2) !! output args = Some (Archive a) /\
    length (header a) = size state_dict /\
    NoDup (names a) /\
    (forall name, name ∈ names a <-> is_Some (state_dict !! name)) /\
    (forall name, tensor_at a name = state_dict !! name).
Proof.
  intros Hm Ho Hd Hl Hs.
  rewrite convert_run, Hm, Hd, Hl, Hs. simpl.
  rewrite Ho, (mkdir_parents_is_dir _ _ _ Hm). simpl.
  exists (serialize state_dict).
  split; [reflexivity|].
  split; [apply lookup_insert_eq|].
  split; [apply serialize_length|].
  split; [apply serialize_NoDup|].
  split; [apply serialize_elem_of|apply serialize_read].
Qed.

(** Whatever makes the converter fail, the files are those the run started
    with. *)
Lemma convert_failed_files args st :
  failed (run args st).1 -> files (fs (run args st).2) = files (fs st).
Proof.
  rewrite convert_run.
  destruct (mkdir_parents (parent (output args)) (fs st)) as [e|fs1] eqn:Hm;
    [reflexivity|].
  pose proof (mkdir_parents_files _ _ _ Hm) as Hf. simpl.
  destruct (hf_hub_download REPO_ID (checkpoint args)) as [e|ckpt_path];
    [intros _; exact Hf|].
  destruct (torch_load ckpt_path) as [e|state]; [intros _; exact Hf|].
  destruct (state !! "state_dict") as [[sd|[n|]]|]; try (intros _; exact Hf).
  destruct (is_dir fs1 (output args)); [intros _; exact Hf|].
  destruct (is_dir fs1 (parent (output args))); [intros []|intros _; exact Hf].
Qed.

End claims.

Lemma c3_witness :
  headless_checkpoint !! "state_dict" = None /\
  (main example_download (loads headless_checkpoint) example_args initial).1
    = Raised MissingStateDict /\
  files (fs (main example_download (loads headless_checkpoint) example_args initial).2)
    !! output example_args = Some old_file.
Proof.
  split; [reflexivity|].
  destruct (c3_missing_state_dict_fails_before_write
              example_download (loads headless_checkpoint) example_args initial
              (FS.mk {[ ["models"] ]} {[ output example_args := old_file ]})
              ["hub"; DEFAULT_CKPT] headless_checkpoint)
    as (H1 & _ & _ & H2); try reflexivity.
  split; [exact H1|]. rewrite H2. reflexivity.
Defined.

Lemma c1_witness :
  example_checkpoint !! "state_dict" = Some (Tensors example_state_dict) /\
  exists a,
    (main example_download (loads example_checkpoint) example_args initial).1
      = Returned tt /\
    files (fs (main example_download (loads example_checkpoint) example_args initial).2)
      !! output example_args = Some (Archive a) /\
    length (header a) = size example_state_dict /\
    NoDup (names a) /\
    (forall name, name ∈ names a <-> is_Some (example_state_dict !! name)) /\
    (forall name, tensor_at a name = example_state_dict !! name).
Proof.
  split; [reflexivity|].
  apply (c1_archive_holds_state_dict example_download (loads example_checkpoint)
           example_args initial
           (FS.mk {[ ["models"] ]} {[ output example_args := old_file ]})
           ["hub"; DEFAULT_CKPT] example_checkpoint example_state_dict);
    reflexivity.
Defined.

(** The end-to-end example of the converter. *)
Example example_archive :
  let a := serialize example_state_dict in
  length (header a) = 2 /\
  tensor_at a "conv1.weight" = Some conv1_weight /\
  tensor_at a "conv1.bias" = Some conv1_bias /\
  length (buffer a) = 1792.
Proof. vm_compute. repeat split. Qed.

End FontDetectionProofs.

(** ** The native dependency fetcher *)

Module CudaProofs.

Import FS FSFacts Cuda.

#[local] Arguments runs : simpl never.

Section claims.

Variable win32 : bool.
Variable executable : string.
Variable tmp : path.
Variable returncode : list string -> Z.
Variable python_lib : exc + path.
Variable glob : path -> string -> list (path * string).

Abbreviation run_main := (main win32 executable tmp returncode python_lib glob).
Abbreviation pip := (Cuda.pip win32 tmp).

Lemma runs_app tr1 tr2 : runs (tr1 ++ tr2) = runs tr1 ++ runs tr2.
Proof. unfold runs. apply omap_app. Qed.

(** The loop over the packages stops at the first one whose installation
    fails: the packages before it were installed, it was attempted, and
    those after it were not. *)
Lemma install_stops_at_first_failure pkgs : forall st pkg,
  pkg ∈ pkgs ->
  returncode (pip_install pip pkg) <> 0%Z ->
  exists done bad rest st',
    pkgs = done ++ bad :: rest /\
    Forall (fun p => returncode (pip_install pip p) = 0%Z) done /\
    returncode (pip_install pip bad) <> 0%Z /\
    install returncode pip pkgs st
      = (Raised (CalledProcessError (pip_install pip bad)
                   (returncode (pip_install pip bad))), st') /\
    fs st' = fs st /\
    runs (trace st') = runs (trace st) ++ map (pip_install pip) (done ++ [bad]).
Proof.
  induction pkgs as [|p pkgs IH]; intros st pkg Hin Hrc.
  - by apply elem_of_nil in Hin.
  - simpl. unfold print, log, run, bind, modify, ret, raise. simpl.
    destruct (returncode (pip_install pip p) =? 0)%Z eqn:E.
    + apply Z.eqb_eq in E.
      apply elem_of_cons in Hin as [->|Hin]; [contradiction|].
      destruct (IH (mkState (fs st)
                      ((trace st ++ [EvPrint ("Installing " +:+ p +:+ "...")])
                         ++ [EvRun (pip_install pip p)])) pkg Hin Hrc)
        as (done & bad & rest & st' & -> & Hok & Hbad & Hrun & Hfs & Htr).
      exists (p :: done), bad, rest, st'.
      split; [reflexivity|]. split; [by constructor|]. split; [exact Hbad|].
      split; [exact Hrun|]. split; [exact Hfs|].
      simpl in Htr. rewrite Htr, !runs_app. unfold runs at 2 3. simpl.
      rewrite app_nil_r, <- app_assoc. reflexivity.
    + apply Z.eqb_neq in E.
      eexists [], p, pkgs, _.
      split; [reflexivity|]. split; [constructor|]. split; [exact E|].
      split; [reflexivity|]. split; [reflexivity|].
      simpl. rewrite !runs_app. unfold runs at 2 3. simpl.
      rewrite app_nil_r. reflexivity.
Qed.

#[local] Arguments install : simpl never.

(** C9. In a run that reaches the installation of the packages (the output
    directory and the virtual environment could be created), if the
    installation of one of the packages fails then [main] ends with the
    [CalledProcessError] of the first package whose installation fails and
    with a non-zero status; the commands started are the creation of the
    environment, the installation of the packages before that one, and its
    own: no package after it is installed; and the file system is the one
    left by the creation of the output directory: no library is copied. *)
Theorem c9_failed_install_aborts args st fs1 pkg :
  FS.mkdir (output args) (fs st) = inr fs1 ->
  returncode (create_venv executable tmp) = 0%Z ->
  pkg ∈ PACKAGES ->
  returncode (pip_install pip pkg) <> 0%Z ->
  exists done bad rest st',
    PACKAGES = done ++ bad :: rest /\
    Forall (fun p => returncode (pip_install pip p) = 0%Z) done /\
    returncode (pip_install pip bad) <> 0%Z /\
    run_main args st
      = (Raised (CalledProcessError (pip_install pip bad)
                   (returncode (pip_install pip bad))), st') /\
    exit_status (run_main args st).1 <> 0%Z /\
    fs st' = fs1 /\
    files (fs st') = files (fs st) /\
    runs (trace st')
      = runs (trace st)
          ++ create_venv executable tmp :: map (pip_install pip) (done ++ [bad]).
Proof.
  intros Hm Hv Hin Hrc.
  destruct (install_stops_at_first_failure PACKAGES
              (mkState fs1 (trace st ++ [EvRun (create_venv executable tmp)]))
              pkg Hin Hrc)
    as (done & bad & rest & st' & Hp & Hok & Hbad & Hrun & Hfs & Htr).
  exists done, bad, rest, st'.
  assert (Hmain : run_main args st
                  = (Raised (CalledProcessError (pip_install pip bad)
                               (returncode (pip_install pip bad))), st')).
  { unfold main, on_fs, run.
    unfold bind at 1. unfold update at 1. rewrite Hm.
    unfold bind at 1. unfold bind at 1. unfold log at 1, modify at 1.
    rewrite Hv. simpl. unfold ret at 1.
    unfold bind at 1. simpl. rewrite Hrun. reflexivity. }
  rewrite Hmain. simpl.
  split; [exact Hp|]. split; [exact Hok|]. split; [exact Hbad|].
  split; [reflexivity|]. split; [discriminate|]. split; [exact Hfs|].
  split; [rewrite Hfs; simpl; apply (mkdir_files _ _ _ Hm)|].
  simpl in Htr. rewrite Htr, runs_app. unfold runs at 2. simpl.
  rewrite <- app_assoc. reflexivity.
Qed.

End claims.

Lemma c9_witness :
  "nvidia-cublas-cu12" ∈ PACKAGES /\
  exists done bad rest st',
    PACKAGES = done ++ bad :: rest /\
    Forall (fun p => cublas_fails (pip_install (Cuda.pip false ["tmp"]) p) = 0%Z) done /\
    cublas_fails (pip_install (Cuda.pip false ["tmp"]) bad) <> 0%Z /\
    main false "python3" ["tmp"] cublas_fails (inr ["tmp"; "venv"; "lib"; "python3.11"])
      example_glob default_args initial
      = (Raised (CalledProcessError (pip_install (Cuda.pip false ["tmp"]) bad)
                   (cublas_fails (pip_install (Cuda.pip false ["tmp"]) bad))), st').
Proof.
  assert (Hin : "nvidia-cublas-cu12" ∈ PACKAGES).
  { unfold PACKAGES. repeat constructor. }
  split; [exact Hin|].
  destruct (c9_failed_install_aborts false "python3" ["tmp"] cublas_fails
              (inr ["tmp"; "venv"; "lib"; "python3.11"]) example_glob
              default_args initial (FS.mk {[ ["libs"] ]} ∅) "nvidia-cublas-cu12")
    as (done & bad & rest & st' & H1 & H2 & H3 & H4 & _);
    [reflexivity|reflexivity|exact Hin|discriminate|].
  exists done, bad, rest, st'. auto.
Defined.

End CudaProofs.

(** ** Failures and the destination file *)

Module Atomicity.

Import FS FSFacts.

#[local] Arguments Json.iterencode : simpl never.

(** C4, as the claim states it, fails: a record whose [path] is a [bytes]
    object makes [json.dump] raise after the file has been opened and the
    text before that value written; the run fails and leaves, at a
    destination where no file was, the beginning of the JSON text. *)
Lemma c4_counterexample :
  let r := FontLabels.main
             (FontLabels.loads (PyList [FontLabels.DSFont (PyBytes "x") PyNone]))
             FontLabels.default_args FontLabels.initial in
  r.1 = Raised (Json.not_serializable "bytes") /\
  files (FontLabels.fs FontLabels.initial) !! FontLabels.output FontLabels.default_args
    = None /\
  files (FontLabels.fs r.2) !! FontLabels.output FontLabels.default_args
    = Some ("[" +:+ Json.newline_indent 1 +:+ "{" +:+ Json.newline_indent 2
            +:+ Json.dquote +:+ "path" +:+ Json.dquote +:+ ": ").
Proof. vm_compute. repeat split. Qed.

(** A failed run of the extractor either leaves the files as they were or
    failed inside [json.dump], and then the destination holds the text
    emitted before the exception. *)
Lemma extract_failed_files unpickle args st :
  failed (FontLabels.main unpickle args st).1 ->
  files (FontLabels.fs (FontLabels.main unpickle args st).2)
    = files (FontLabels.fs st)
  \/ exists items e,
      (FontLabels.main unpickle args st).1 = Raised e /\
      (Json.iterencode (PyList (FontLabels.collect items [])) 0).2 = Some e /\
      files (FontLabels.fs (FontLabels.main unpickle args st).2)
        = <[ FontLabels.output args
             := (Json.iterencode (PyList (FontLabels.collect items [])) 0).1 ]>
            (files (FontLabels.fs st)).
Proof.
  rewrite FontLabelsProofs.extract_run.
  destruct (exists_ (FontLabels.fs st) (FontLabels.input args)); simpl; [|by left].
  destruct (FS.read (FontLabels.input args) (FontLabels.fs st)) as [e|content];
    [by left|].
  destruct (unpickle content) as [e|root]; [by left|].
  destruct (FontLabels.iter root) as [e|items]; [by left|].
  destruct (mkdir_parents (parent (FontLabels.output args)) (FontLabels.fs st))
    as [e|fs1] eqn:Hm; [by left|].
  pose proof (mkdir_parents_files _ _ _ Hm) as Hf.
  destruct (open_w "" (FontLabels.output args) fs1) as [e|fs2] eqn:Ho;
    [intros _; left; exact Hf|].
  apply open_w_inv in Ho as (_ & _ & ->). simpl.
  destruct ((Json.iterencode (PyList (FontLabels.collect items [])) 0).2)
    as [e|] eqn:Hj; [|intros []].
  intros _. right. exists items, e. simpl.
  split; [reflexivity|]. split; [exact Hj|].
  rewrite Hf. apply insert_insert_eq.
Qed.

(** C4 (amended). A failure of the converter (the directories cannot be
    created, the download or the deserialisation fails, the weight mapping
    is missing or is not a mapping of tensors, the destination is a
    directory) leaves every file as it was. A failure of the extractor
    leaves every file as it was, unless it is raised by [json.dump]: then
    the destination holds the text emitted before the exception. *)
Theorem c4_failures_and_the_destination :
  (forall hf_hub_download torch_load args st,
      failed (FontDetection.main hf_hub_download torch_load args st).1 ->
      files (FontDetection.fs (FontDetection.main hf_hub_download torch_load args st).2)
        = files (FontDetection.fs st)) /\
  (forall unpickle args st,
      failed (FontLabels.main unpickle args st).1 ->
      files (FontLabels.fs (FontLabels.main unpickle args st).2)
        = files (FontLabels.fs st)
      \/ exists items e,
          (FontLabels.main unpickle args st).1 = Raised e /\
          (Json.iterencode (PyList (FontLabels.collect items [])) 0).2 = Some e /\
          files (FontLabels.fs (FontLabels.main unpickle args st).2)
            = <[ FontLabels.output args
                 := (Json.iterencode (PyList (FontLabels.collect items [])) 0).1 ]>
                (files (FontLabels.fs st))).
Proof.
  split.
  - apply FontDetectionProofs.convert_failed_files.
  - apply extract_failed_files.
Qed.

Lemma c4_witness :
  failed (FontDetection.main FontDetection.example_download
            (FontDetection.loads FontDetection.headless_checkpoint)
            FontDetection.example_args FontDetection.initial).1 /\
  files (FontDetection.fs
           (FontDetection.main FontDetection.example_download
              (FontDetection.loads FontDetection.headless_checkpoint)
              FontDetection.example_args FontDetection.initial).2)
    = files (FontDetection.fs FontDetection.initial).
Proof.
  assert (H : failed (FontDetection.main FontDetection.example_download
                        (FontDetection.loads FontDetection.headless_checkpoint)
                        FontDetection.example_args FontDetection.initial).1)
    by exact I.
  split; [exact H|].
  apply (proj1 c4_failures_and_the_destination _ _ _ _ H).
Defined.

End Atomicity.

(** * More about the scripts *)

(** ** The encoder *)

Module JsonFacts.

Import Json.











End JsonFacts.

(** ** More about the label extractor *)

Module FontLabelsFacts.

Import FS FSFacts FontLabels FontLabelsProofs.

#[local] Arguments Json.iterencode : simpl never.

(** *** The loop *)

Lemma label_of_record_has_path item :
  label_of_record item
  = if has_path item
    then Some (entry (getattr item "path" PyNone) (getattr item "language" PyNone))
    else None.
Proof.
  unfold label_of_record, has_path. rewrite !getattr_field.
  destruct (field item "path") as [[]|]; reflexivity.
Qed.

(** X1. The labels of two graphs put end to end are the labels of the first
    followed by those of the second. *)
Theorem collect_app (data1 data2 : list value) :
  collect (data1 ++ data2) [] = collect data1 [] ++ collect data2 [].
Proof. rewrite !collect_spec. simpl. apply omap_app. Qed.

Lemma collect_filter_length (items : list value) :
  length (collect items []) = length (List.filter has_path items).
Proof.
  rewrite collect_spec. simpl.
  induction items as [|item rest IH]; [reflexivity|].
  csimpl. rewrite label_of_record_has_path.
  destruct (has_path item); simpl; by rewrite IH.
Qed.

(** X2. The output has one entry for each item whose [path] is not [None], no
    more and no less. *)
Theorem collect_count (items : list value) :
  length (collect items []) = length (List.filter has_path items).
Proof. apply collect_filter_length. Qed.



Section facts.

Variable unpickle : string -> exc + value.

(** X3. Whatever the run does, only the file at the output path can differ
    afterwards: in particular an input file that is not the output is never
    changed. *)
Theorem extract_touches_only_output args st (p : path) :
  p <> output args ->
  files (fs (main unpickle args st).2) !! p = files (fs st) !! p.
Proof.
  intros Hp. rewrite extract_run.
  destruct (exists_ (fs st) (input args)); simpl; [|reflexivity].
  destruct (FS.read (input args) (fs st)) as [e|content]; [reflexivity|].
  destruct (unpickle content) as [e|root]; [reflexivity|].
  destruct (iter root) as [e|items]; [reflexivity|].
  destruct (mkdir_parents (parent (output args)) (fs st)) as [e|fs1] eqn:Hm;
    [reflexivity|].
  pose proof (mkdir_parents_files _ _ _ Hm) as Hf.
  destruct (open_w "" (output args) fs1) as [e|fs2] eqn:Ho;
    [simpl; by rewrite Hf|].
  apply open_w_inv in Ho as (_ & _ & ->).
  destruct ((Json.iterencode (PyList (collect items [])) 0).2); simpl;
    rewrite !lookup_insert_ne by congruence; by rewrite Hf.
Qed.


(** X5. A run that fails prints nothing: the line reporting the labels written
    appears only when [main] returns. The only event of a failed run is the
    call of [pickle.load], if it got that far. *)
Theorem extract_failure_prints_nothing args st :
  failed (main unpickle args st).1 ->
  trace (main unpickle args st).2 = trace st \/
  trace (main unpickle args st).2 = trace st ++ [EvPickleLoad (input args)].
Proof.
  rewrite extract_run.
  destruct (exists_ (fs st) (input args)); simpl; [|by left].
  destruct (FS.read (input args) (fs st)) as [e|content]; [by left|].
  destruct (unpickle content) as [e|root]; [by right|].
  destruct (iter root) as [e|items]; [by right|].
  destruct (mkdir_parents (parent (output args)) (fs st)) as [e|fs1]; [by right|].
  destruct (open_w "" (output args) fs1) as [e|fs2]; [by right|].
  simpl. destruct ((Json.iterencode (PyList (collect items [])) 0).2);
    [by right|intros []].
Qed.

(** X6. An input path that is a directory passes the existence test, and the
    run ends with the [OSError] of [open]: nothing is deserialised, nothing
    is created. *)
Theorem extract_input_is_directory args st :
  is_dir (fs st) (input args) = true ->
  files (fs st) !! input args = None ->
  exists msg, main unpickle args st = (Raised (OSError msg), st).
Proof.
  intros Hd Hf. rewrite extract_run.
  unfold exists_, FS.read. rewrite Hd, Hf. simpl. eauto.
Qed.

(** X7. An exception of [pickle.load] is the exception of the run; by then
    nothing has been created or written. *)
Theorem extract_unpickle_error args st content e :
  files (fs st) !! input args = Some content ->
  unpickle content = inl e ->
  main unpickle args st
    = (Raised e, logged st [EvPickleLoad (input args)] (fs st)).
Proof.
  intros Hc Hu.
  assert (Hx : exists_ (fs st) (input args) = true).
  { unfold exists_. apply orb_true_iff. right. apply is_file_true. eauto. }
  rewrite extract_run, Hx. unfold FS.read. rewrite Hc, Hu. reflexivity.
Qed.

(** X8. When no item has a [path] (an empty root among others), the run
    succeeds all the same: the destination holds the empty JSON list and
    the line printed reports zero labels. *)
Theorem extract_nothing_kept args st content root items fs1 :
  files (fs st) !! input args = Some content ->
  unpickle content = inr root ->
  iter root = inr items ->
  Forall (fun item => has_path item = false) items ->
  mkdir_parents (parent (output args)) (fs st) = inr fs1 ->
  is_dir fs1 (output args) = false ->
  (main unpickle args st).1 = Returned tt /\
  files (fs (main unpickle args st).2) !! output args = Some "[]" /\
  trace (main unpickle args st).2
    = trace st ++ [EvPickleLoad (input args); EvPrint (wrote 0 (output args))].
Proof.
  intros Hc Hu Hi Hn Hm Hd.
  assert (Hx : exists_ (fs st) (input args) = true).
  { unfold exists_. apply orb_true_iff. right. apply is_file_true. eauto. }
  pose proof (mkdir_parents_is_dir _ _ _ Hm) as Hp.
  assert (Ho : open_w "" (output args) fs1 = inr (put (output args) "" fs1)).
  { unfold open_w. rewrite Hd, Hp. reflexivity. }
  assert (He : collect items [] = []).
  { rewrite collect_spec. simpl. clear -Hn.
    induction Hn as [|item rest Hi _ IH]; [reflexivity|].
    csimpl. rewrite label_of_record_has_path, Hi. exact IH. }
  rewrite extract_run, Hx. unfold FS.read. rewrite Hc, Hu, Hi, Hm, Ho, He. simpl.
  split; [reflexivity|]. split; [apply lookup_insert_eq|reflexivity].
Qed.

End facts.

Lemma extract_touches_only_output_witness :
  input default_args <> output default_args /\
  files (fs (main (loads example_graph) default_args initial).2) !! input default_args
    = files (fs initial) !! input default_args.
Proof.
  assert (H : input default_args <> output default_args) by discriminate.
  split; [exact H|].
  apply (extract_touches_only_output (loads example_graph) default_args initial _ H).
Defined.


Lemma extract_failure_prints_nothing_witness :
  failed (main (loads (PyInt 3)) default_args initial).1 /\
  (trace (main (loads (PyInt 3)) default_args initial).2 = trace initial \/
   trace (main (loads (PyInt 3)) default_args initial).2
     = trace initial ++ [EvPickleLoad (input default_args)]).
Proof.
  assert (H : failed (main (loads (PyInt 3)) default_args initial).1) by exact I.
  split; [exact H|].
  apply (extract_failure_prints_nothing (loads (PyInt 3)) default_args initial H).
Defined.

Lemma extract_input_is_directory_witness :
  is_dir (fs initial) [] = true /\
  exists msg,
    main (loads example_graph) (mkArgs [] ["labels.json"]) initial
      = (Raised (OSError msg), initial).
Proof.
  split; [reflexivity|].
  apply (extract_input_is_directory (loads example_graph)
           (mkArgs [] ["labels.json"]) initial); reflexivity.
Defined.

Lemma extract_unpickle_error_witness :
  files (fs initial) !! input default_args = Some "pickle" /\
  main (fun _ => inl (LibraryError "UnpicklingError")) default_args initial
    = (Raised (LibraryError "UnpicklingError"),
       logged initial [EvPickleLoad (input default_args)] (fs initial)).
Proof.
  split; [reflexivity|].
  apply (extract_unpickle_error (fun _ => inl (LibraryError "UnpicklingError"))
           default_args initial "pickle"); reflexivity.
Defined.

Lemma extract_nothing_kept_witness :
  iter (PyList [DSFont PyNone (PyStr "ja"); PyInt 1]) 
    = inr [DSFont PyNone (PyStr "ja"); PyInt 1] /\
  (main (loads (PyList [DSFont PyNone (PyStr "ja"); PyInt 1])) default_args initial).1
    = Returned tt /\
  files (fs (main (loads (PyList [DSFont PyNone (PyStr "ja"); PyInt 1]))
               default_args initial).2) !! output default_args = Some "[]".
Proof.
  split; [reflexivity|].
  destruct (extract_nothing_kept
              (loads (PyList [DSFont PyNone (PyStr "ja"); PyInt 1]))
              default_args initial "pickle"
              (PyList [DSFont PyNone (PyStr "ja"); PyInt 1])
              [DSFont PyNone (PyStr "ja"); PyInt 1] (fs initial))
    as (H1 & H2 & _); try reflexivity.
  - repeat constructor.
  - split; [exact H1|exact H2].
Defined.

End FontLabelsFacts.

(** ** More about the converter *)

Module FontDetectionFacts.

Import FS FSFacts Safetensors SafetensorsProofs FontDetection FontDetectionProofs.

(** A regular file among the components of a path makes the creation of
    its directories fail. *)
Lemma mkdir_from_blocked {C : Type} (rest : list string) :
  forall (base : path) (fs : FS.t C),
    (exists k, 0 < k <= length rest /\ is_file fs (base ++ take k rest) = true) ->
    exists msg, mkdir_from base rest fs = inl (OSError msg).
Proof.
  induction rest as [|c rest IH]; intros base fs (k & Hk & Hf); simpl in *; [lia|].
  destruct (is_file fs (base ++ [c])) eqn:E; [eauto|].
  destruct k as [|k]; [lia|]. simpl in Hf.
  destruct k as [|k]; [rewrite take_0 in Hf; congruence|].
  apply IH. exists (S k). split; [lia|].
  rewrite <- app_assoc. simpl.
  apply is_file_true. rewrite add_dir_files. by apply is_file_true.
Qed.

Section facts.

Variable hf_hub_download : string -> string -> exc + path.
Variable torch_load : path -> exc + gmap string field.

Abbreviation run := (main hf_hub_download torch_load).

(** X9. Whatever the run does, only the file at the output path can differ
    afterwards. *)
Theorem convert_touches_only_output args st (p : path) :
  p <> output args ->
  files (fs (run args st).2) !! p = files (fs st) !! p.
Proof.
  intros Hp. rewrite convert_run.
  destruct (mkdir_parents (parent (output args)) (fs st)) as [e|fs1] eqn:Hm;
    [reflexivity|].
  pose proof (mkdir_parents_files _ _ _ Hm) as Hf. simpl.
  destruct (hf_hub_download REPO_ID (checkpoint args)) as [e|ckpt_path];
    [simpl; by rewrite Hf|].
  destruct (torch_load ckpt_path) as [e|state]; [simpl; by rewrite Hf|].
  destruct (state !! "state_dict") as [[sd|[n|]]|]; try (simpl; by rewrite Hf).
  destruct (is_dir fs1 (output args)); [simpl; by rewrite Hf|].
  destruct (is_dir fs1 (parent (output args))); simpl; [|by rewrite Hf].
  rewrite lookup_insert_ne by congruence. by rewrite Hf.
Qed.

(** X10. The directories of the destination are created first: when one of
    the components of the parent of the destination is a regular file, the
    run ends with an [OSError] in the state it started in, and the download
    is not attempted. *)
Theorem convert_mkdir_error args st k :
  0 < k <= length (parent (output args)) ->
  is_file (fs st) (take k (parent (output args))) = true ->
  exists msg, run args st = (Raised (OSError msg), st).
Proof.
  intros Hk Hf.
  destruct (mkdir_from_blocked (parent (output args)) [] (fs st))
    as [msg Hm]; [by exists k|].
  exists msg. rewrite convert_run. unfold mkdir_parents. rewrite Hm. reflexivity.
Qed.

(** X11. An error of the download is the error of the run. By then the
    directories of the destination exist; [torch.load] is not called and no
    file is written. *)
Theorem convert_download_error args st fs1 e :
  mkdir_parents (parent (output args)) (fs st) = inr fs1 ->
  hf_hub_download REPO_ID (checkpoint args) = inl e ->
  (run args st).1 = Raised e /\
  fs (run args st).2 = fs1 /\
  is_dir (fs (run args st).2) (parent (output args)) = true /\
  files (fs (run args st).2) = files (fs st) /\
  trace (run args st).2 = trace st ++ downloading args.
Proof.
  intros Hm Hd. rewrite convert_run, Hm, Hd. simpl.
  split; [reflexivity|]. split; [reflexivity|].
  split; [apply (mkdir_parents_is_dir _ _ _ Hm)|].
  split; [apply (mkdir_parents_files _ _ _ Hm)|].
  by rewrite <- app_assoc.
Qed.

(** X12. An error of [torch.load] is the error of the run; no file is written. *)
Theorem convert_load_error args st fs1 ckpt_path e :
  mkdir_parents (parent (output args)) (fs st) = inr fs1 ->
  hf_hub_download REPO_ID (checkpoint args) = inr ckpt_path ->
  torch_load ckpt_path = inl e ->
  (run args st).1 = Raised e /\
  files (fs (run args st).2) = files (fs st) /\
  trace (run args st).2 = trace st ++ downloading args ++ loading ckpt_path.
Proof.
  intros Hm Hd Hl. rewrite convert_run, Hm, Hd, Hl. simpl.
  split; [reflexivity|]. split; [apply (mkdir_parents_files _ _ _ Hm)|].
  by rewrite <- !app_assoc.
Qed.

(** X13. On a successful run the events are, in this order: the download, the
    deserialisation, the line giving the number of tensors, which is the
    number of keys of the weight mapping and of header lines of the archive
    written, and the line [Done.]; the directory of the destination exists
    afterwards. *)
Theorem convert_success_trace args st fs1 ckpt_path state state_dict :
  mkdir_parents (parent (output args)) (fs st) = inr fs1 ->
  is_dir fs1 (output args) = false ->
  hf_hub_download REPO_ID (checkpoint args) = inr ckpt_path ->
  torch_load ckpt_path = inr state ->
  state !! "state_dict" = Some (Tensors state_dict) ->
  (run args st).1 = Returned tt /\
  trace (run args st).2
    = trace st ++ downloading args ++ loading ckpt_path
        ++ [EvPrint (saving (length (header (serialize state_dict))) (output args));
            EvPrint "Done."] /\
  is_dir (fs (run args st).2) (parent (output args)) = true.
Proof.
  intros Hm Ho Hd Hl Hs.
  pose proof (mkdir_parents_is_dir _ _ _ Hm) as Hp.
  rewrite serialize_length.
  rewrite convert_run, Hm, Hd, Hl, Hs. simpl. rewrite Ho, Hp. simpl.
  split; [reflexivity|]. split; [|exact Hp].
  rewrite <- !app_assoc. reflexivity.
Qed.

(** X14. A destination that is an existing directory is found out only by
    [save_file], after the download and the deserialisation: the line that
    announces the tensors has been printed, the run ends with the exception
    of [save_file], and no file is written. *)
Theorem convert_destination_is_directory args st fs1 ckpt_path state state_dict :
  mkdir_parents (parent (output args)) (fs st) = inr fs1 ->
  is_dir fs1 (output args) = true ->
  hf_hub_download REPO_ID (checkpoint args) = inr ckpt_path ->
  torch_load ckpt_path = inr state ->
  state !! "state_dict" = Some (Tensors state_dict) ->
  (exists e, (run args st).1 = Raised e) /\
  exit_status (run args st).1 <> 0%Z /\
  fs (run args st).2 = fs1 /\
  trace (run args st).2
    = trace st ++ downloading args ++ loading ckpt_path
        ++ [EvPrint (saving (size state_dict) (output args))].
Proof.
  intros Hm Ho Hd Hl Hs.
  rewrite convert_run, Hm, Hd, Hl, Hs. simpl. rewrite Ho. simpl.
  split; [eauto|]. split; [discriminate|]. split; [reflexivity|].
  rewrite <- !app_assoc. reflexivity.
Qed.

(** X15. The line [Done.] is printed only by a run that returns. *)
Theorem convert_done_only_on_success args st :
  failed (run args st).1 ->
  EvPrint "Done." ∈ trace (run args st).2 ->
  EvPrint "Done." ∈ trace st.
Proof.
  rewrite convert_run.
  destruct (mkdir_parents (parent (output args)) (fs st)) as [e|fs1];
    [intros _ H; exact H|].
  assert (Hsav : forall n, EvPrint "Done." <> EvPrint (saving n (output args))).
  { intros n H. unfold saving in H. simpl in H. discriminate. }
  assert (Hstep : forall tr ev, ev <> EvPrint "Done." ->
                                EvPrint "Done." ∈ tr ++ [ev] -> EvPrint "Done." ∈ tr).
  { intros tr ev Hev H. apply elem_of_app in H as [H|H]; [exact H|].
    apply list_elem_of_singleton in H. congruence. }
  simpl.
  destruct (hf_hub_download REPO_ID (checkpoint args)) as [e|ckpt_path].
  { simpl. intros _ H.
    apply Hstep in H; [|discriminate]. apply Hstep in H; [exact H|discriminate]. }
  assert (Hload : forall tr,
            EvPrint "Done." ∈ (((tr ++ [EvPrint ("Downloading " +:+ checkpoint args
                                                 +:+ " from " +:+ REPO_ID +:+ " ...")])
                                 ++ [EvDownload REPO_ID (checkpoint args)])
                                ++ [EvPrint ("Loaded checkpoint at " +:+ FS.show ckpt_path)])
                               ++ [EvLoad ckpt_path] ->
            EvPrint "Done." ∈ tr).
  { intros tr H. do 4 (apply Hstep in H; [|discriminate]). exact H. }
  destruct (torch_load ckpt_path) as [e|state]; [simpl; intros _; apply Hload|].
  destruct (state !! "state_dict") as [[sd|[n|]]|]; simpl; try (intros _; apply Hload).
  - destruct (is_dir fs1 (output args)); simpl.
    + intros _ H. apply Hstep in H; [by apply Hload|]. intros E. by apply (Hsav (size sd)).
    + destruct (is_dir fs1 (parent (output args))); simpl; [intros []|].
      intros _ H. apply Hstep in H; [by apply Hload|]. intros E. by apply (Hsav (size sd)).
  - intros _ H. apply Hstep in H; [by apply Hload|]. intros E. by apply (Hsav n).
Qed.

End facts.

Lemma convert_touches_only_output_witness :
  ["models"; "other.bin"] <> output example_args /\
  files (fs (main example_download (loads example_checkpoint) example_args initial).2)
    !! ["models"; "other.bin"] = None.
Proof.
  assert (H : ["models"; "other.bin"] <> output example_args) by discriminate.
  split; [exact H|].
  rewrite (convert_touches_only_output example_download (loads example_checkpoint)
             example_args initial _ H).
  reflexivity.
Defined.

Lemma convert_mkdir_error_witness :
  is_file (fs initial) ["models"; "font.safetensors"] = true /\
  exists msg,
    main example_download (loads example_checkpoint)
      (mkArgs DEFAULT_CKPT ["models"; "font.safetensors"; "x"]) initial
    = (Raised (OSError msg), initial).
Proof.
  split; [reflexivity|].
  apply (convert_mkdir_error example_download (loads example_checkpoint)
           (mkArgs DEFAULT_CKPT ["models"; "font.safetensors"; "x"]) initial 2);
    [simpl; lia|reflexivity].
Defined.

Lemma convert_download_error_witness :
  (main (fun _ _ => inl (LibraryError "offline")) (loads example_checkpoint)
     example_args initial).1 = Raised (LibraryError "offline") /\
  is_dir (fs (main (fun _ _ => inl (LibraryError "offline")) (loads example_checkpoint)
                example_args initial).2) ["models"] = true.
Proof.
  destruct (convert_download_error (fun _ _ => inl (LibraryError "offline"))
              (loads example_checkpoint) example_args initial
              (FS.mk {[ ["models"] ]} {[ output example_args := old_file ]})
              (LibraryError "offline"))
    as (H1 & _ & H2 & _); try reflexivity.
  split; [exact H1|exact H2].
Defined.

Lemma convert_load_error_witness :
  (main example_download (fun _ => inl (LibraryError "corrupt")) example_args initial).1
    = Raised (LibraryError "corrupt") /\
  files (fs (main example_download (fun _ => inl (LibraryError "corrupt"))
               example_args initial).2) = files (fs initial).
Proof.
  destruct (convert_load_error example_download (fun _ => inl (LibraryError "corrupt"))
              example_args initial
              (FS.mk {[ ["models"] ]} {[ output example_args := old_file ]})
              ["hub"; DEFAULT_CKPT] (LibraryError "corrupt"))
    as (H1 & H2 & _); try reflexivity.
  split; [exact H1|exact H2].
Defined.

Lemma convert_success_trace_witness :
  example_checkpoint !! "state_dict" = Some (Tensors example_state_dict) /\
  (main example_download (loads example_checkpoint) example_args initial).1
    = Returned tt /\
  is_dir (fs (main example_download (loads example_checkpoint) example_args initial).2)
    ["models"] = true.
Proof.
  split; [reflexivity|].
  destruct (convert_success_trace example_download (loads example_checkpoint)
              example_args initial
              (FS.mk {[ ["models"] ]} {[ output example_args := old_file ]})
              ["hub"; DEFAULT_CKPT] example_checkpoint example_state_dict)
    as (H1 & _ & H2); try reflexivity.
  split; [exact H1|exact H2].
Defined.

Lemma convert_destination_is_directory_witness :
  is_dir (fs initial) [] = true /\
  exists e,
    (main example_download (loads example_checkpoint) (mkArgs DEFAULT_CKPT []) initial).1
      = Raised e.
Proof.
  split; [reflexivity|].
  destruct (convert_destination_is_directory example_download
              (loads example_checkpoint) (mkArgs DEFAULT_CKPT []) initial
              (fs initial) ["hub"; DEFAULT_CKPT] example_checkpoint example_state_dict)
    as (H1 & _); [reflexivity .. | exact H1].
Defined.

Lemma convert_done_only_on_success_witness :
  failed (main example_download (loads headless_checkpoint) example_args initial).1 /\
  (EvPrint "Done."
     ∈ trace (main example_download (loads headless_checkpoint) example_args initial).2 ->
   EvPrint "Done." ∈ trace initial).
Proof.
  assert (H : failed (main example_download (loads headless_checkpoint)
                        example_args initial).1) by exact I.
  split; [exact H|].
  apply (convert_done_only_on_success example_download (loads headless_checkpoint)
           example_args initial H).
Defined.

End FontDetectionFacts.

(** ** More about the native dependency fetcher *)

Module CudaFacts.

Import FS FSFacts Cuda CudaProofs.

#[local] Arguments runs : simpl never.

(** *** The substring test *)

Lemma prefix_spec a : forall s,
  String.prefix a s = true <-> exists post, s = a +:+ post.
Proof.
  induction a as [|c a IH]; intros s.
  - split; [intros _; by exists s|intros _; by destruct s].
  - destruct s as [|d s]; simpl.
    + split; [discriminate|intros [post H]; discriminate].
    + destruct (Ascii.ascii_dec c d) as [->|Hne].
      * rewrite IH. split; intros [post H]; exists post; [by rewrite H|].
        by inversion H.
      * split; [discriminate|]. intros [post H]. inversion H. congruence.
Qed.

Lemma contains_nil needle : contains needle "" = String.prefix needle "" || false.
Proof. reflexivity. Qed.

Lemma contains_cons needle c s :
  contains needle (String c s) = String.prefix needle (String c s) || contains needle s.
Proof. reflexivity. Qed.

Lemma contains_spec needle s :
  contains needle s = true <-> exists pre post, s = pre +:+ needle +:+ post.
Proof.
  induction s as [|c s IH].
  - rewrite contains_nil, orb_false_r, prefix_spec. split.
    + intros [post H]. by exists "", post.
    + intros (pre & post & H). destruct pre; [by exists post|discriminate].
  - rewrite contains_cons, orb_true_iff, prefix_spec, IH. split.
    + intros [[post H]|(pre & post & H)].
      * by exists "", post.
      * exists (String c pre), post. simpl. by rewrite H.
    + intros (pre & post & H). destruct pre as [|d pre].
      * left. by exists post.
      * right. simpl in H. inversion H. by exists pre, post.
Qed.

Section facts.

Variable win32 : bool.
Variable executable : string.
Variable tmp : path.
Variable returncode : list string -> Z.
Variable python_lib : exc + path.
Variable glob : path -> string -> list (path * string).

Abbreviation run_main := (main win32 executable tmp returncode python_lib glob).
Abbreviation pip := (Cuda.pip win32 tmp).
Abbreviation libs_found := (site_libs win32 tmp python_lib glob).

(** *** The two loops *)

Lemma install_all pkgs : forall st,
  Forall (fun p => returncode (pip_install pip p) = 0%Z) pkgs ->
  exists st',
    install returncode pip pkgs st = (Returned tt, st') /\
    fs st' = fs st /\
    runs (trace st') = runs (trace st) ++ map (pip_install pip) pkgs.
Proof.
  induction pkgs as [|p pkgs IH]; intros st H.
  - exists st. simpl. by rewrite app_nil_r.
  - apply Forall_cons in H as [Hp H].
    simpl. unfold print, log, run, bind, modify, ret, raise. simpl.
    rewrite Hp. simpl.
    destruct (IH (mkState (fs st)
                    ((trace st ++ [EvPrint ("Installing " +:+ p +:+ "...")])
                       ++ [EvRun (pip_install pip p)])) H)
      as (st' & Hrun & Hfs & Htr).
    exists st'. split; [exact Hrun|]. split; [exact Hfs|].
    simpl in Htr. rewrite Htr, !runs_app. unfold runs at 2 3. simpl.
    rewrite app_nil_r, <- app_assoc. reflexivity.
Qed.

(** The installation loop touches no file, however it ends. *)
Lemma install_fs pkgs : forall st,
  fs (install returncode pip pkgs st).2 = fs st.
Proof.
  induction pkgs as [|p pkgs IH]; intros st; [reflexivity|].
  simpl. unfold print, log, run, bind, modify, ret, raise. simpl.
  destruct (returncode (pip_install pip p) =? 0)%Z; simpl; [|reflexivity].
  specialize (IH (mkState (fs st)
                    ((trace st ++ [EvPrint ("Installing " +:+ p +:+ "...")])
                       ++ [EvRun (pip_install pip p)]))).
  exact IH.
Qed.

Lemma copy_libs_cons lib content rest output st :
  copy_libs ((lib, content) :: rest) output st
  = copy_libs rest output
      (if wanted lib
       then mkState (put (output ++ [name lib]) content (fs st))
              (trace st ++ [EvPrint ("Copied " +:+ name lib)])
       else st).
Proof.
  unfold wanted. simpl. unfold bind, copy2, on_fs, print, log, update, modify, ret.
  destruct (contains "nvidia" (show lib)); reflexivity.
Qed.

Lemma copy_libs_returns libs output : forall st,
  (copy_libs libs output st).1 = Returned tt.
Proof.
  induction libs as [|[lib c] rest IH]; intros st; [reflexivity|].
  rewrite copy_libs_cons. apply IH.
Qed.

Lemma copy_libs_app libs1 libs2 output : forall st,
  copy_libs (libs1 ++ libs2) output st
  = copy_libs libs2 output (copy_libs libs1 output st).2.
Proof.
  induction libs1 as [|[lib c] rest IH]; intros st; [reflexivity|].
  simpl app. rewrite !copy_libs_cons. apply IH.
Qed.

Lemma copy_libs_runs libs output : forall st,
  dirs (fs (copy_libs libs output st).2) = dirs (fs st) /\
  runs (trace (copy_libs libs output st).2) = runs (trace st).
Proof.
  induction libs as [|[lib c] rest IH]; intros st; [by split|].
  rewrite copy_libs_cons.
  destruct (IH (if wanted lib
                then mkState (put (output ++ [name lib]) c (fs st))
                       (trace st ++ [EvPrint ("Copied " +:+ name lib)])
                else st)) as [Hd Hr].
  rewrite Hd, Hr. destruct (wanted lib); [|by split].
  simpl. split; [reflexivity|].
  rewrite runs_app. unfold runs at 2. simpl. by rewrite app_nil_r.
Qed.

(** A file that differs after the loop is the copy of a library whose path
    contains [nvidia], under the name of that library directly inside the
    output directory, and it holds the content of such a library. *)
Lemma copy_libs_changed libs output : forall st (p : path),
  files (fs (copy_libs libs output st).2) !! p <> files (fs st) !! p ->
  exists lib content,
    (lib, content) ∈ libs /\ wanted lib = true /\
    p = output ++ [name lib] /\
    files (fs (copy_libs libs output st).2) !! p = Some content.
Proof.
  induction libs as [|[lib c] rest IH]; intros st p H; [by destruct H|].
  rewrite copy_libs_cons in *.
  set (st1 := if wanted lib
              then mkState (put (output ++ [name lib]) c (fs st))
                     (trace st ++ [EvPrint ("Copied " +:+ name lib)])
              else st) in *.
  destruct (decide (files (fs (copy_libs rest output st1).2) !! p
                    = files (fs st1) !! p)) as [Heq|Hne].
  - rewrite Heq in *. subst st1.
    destruct (wanted lib) eqn:Hw; [|by destruct H].
    simpl in *. destruct (decide (p = output ++ [name lib])) as [->|Hp].
    + exists lib, c. split; [left|]. rewrite lookup_insert_eq. auto.
    + rewrite lookup_insert_ne in H by congruence. by destruct H.
  - destruct (IH st1 p Hne) as (lib' & c' & Hin & Hw & Hp & Hc).
    exists lib', c'. split; [by right|auto].
Qed.

(** The last library of a name is the one whose content stays. *)
Lemma copy_libs_last libs1 lib content libs2 output st :
  wanted lib = true ->
  Forall (fun lc => wanted lc.1 = true -> name lc.1 <> name lib) libs2 ->
  files (fs (copy_libs (libs1 ++ (lib, content) :: libs2) output st).2)
    !! (output ++ [name lib]) = Some content.
Proof.
  intros Hw Hlater.
  rewrite copy_libs_app, copy_libs_cons, Hw.
  set (st1 := mkState _ _).
  destruct (decide (files (fs (copy_libs libs2 output st1).2) !! (output ++ [name lib])
                    = files (fs st1) !! (output ++ [name lib]))) as [Heq|Hne].
  - rewrite Heq. subst st1. simpl. apply lookup_insert_eq.
  - destruct (copy_libs_changed _ _ _ _ Hne) as (lib' & c' & Hin & Hw' & Hp & _).
    apply app_inj_tail in Hp as [_ Hn].
    rewrite Forall_forall in Hlater. specialize (Hlater _ Hin Hw').
    simpl in Hlater. congruence.
Qed.

#[local] Arguments install : simpl never.
#[local] Arguments copy_libs : simpl never.

(** *** The run of [main], step by step *)

Lemma fetch_run args st :
  run_main args st =
    match FS.mkdir (output args) (fs st) with
    | inl e => (Raised e, st)
    | inr fs1 =>
        let st1 := mkState fs1 (trace st ++ [EvRun (create_venv executable tmp)]) in
        if (returncode (create_venv executable tmp) =? 0)%Z
        then
          match install returncode pip PACKAGES st1 with
          | (Returned _, st2) =>
              match libs_found with
              | inl e => (Raised e, st2)
              | inr libs =>
                  let st3 := (copy_libs libs (output args) st2).2 in
                  (Returned tt,
                   mkState (fs st3) (trace st3 ++ [EvPrint (done_line (output args))]))
              end
          | (Raised e, st2) => (Raised e, st2)
          | (Exited msg, st2) => (Exited msg, st2)
          end
        else (Raised (CalledProcessError (create_venv executable tmp)
                        (returncode (create_venv executable tmp))), st1)
    end.
Proof.
  unfold main, site_libs, on_fs, run, print, log, done_line.
  unfold bind at 1. unfold update at 1.
  destruct (FS.mkdir (output args) (fs st)) as [e|fs1]; [reflexivity|].
  unfold bind at 1. unfold bind at 1. unfold modify at 1. simpl.
  destruct (returncode (create_venv executable tmp) =? 0)%Z; [|reflexivity].
  unfold ret at 1. unfold bind at 1.
  destruct (install returncode pip PACKAGES _) as [[[]|e|msg] st2]; try reflexivity.
  unfold bind at 1.
  destruct win32.
  - unfold ret at 1. unfold bind at 1.
    pose proof (copy_libs_returns
                  (glob (venv tmp ++ ["Lib"; "site-packages"]) "**/*.dll")
                  (output args) st2) as Hr.
    destruct (copy_libs _ _ st2) as [o st3]. simpl in Hr. subst o. reflexivity.
  - unfold bind at 1, lift.
    destruct python_lib as [e|lib]; [reflexivity|].
    unfold ret at 1 2. unfold bind at 1.
    pose proof (copy_libs_returns (glob (lib ++ ["site-packages"]) "**/*.so*")
                  (output args) st2) as Hr.
    destruct (copy_libs _ _ st2) as [o st3]. simpl in Hr. subst o. reflexivity.
Qed.

(** *** The run as a whole *)

(** X16. The output directory is created without its parents: when it does not
    exist and its parent is not a directory, the run ends with the
    [OSError] of [mkdir] in the state it started in, before any command is
    started. *)
Theorem fetch_output_parent_missing args st :
  is_dir (fs st) (output args) = false ->
  is_file (fs st) (output args) = false ->
  is_dir (fs st) (parent (output args)) = false ->
  exists msg, run_main args st = (Raised (OSError msg), st).
Proof.
  intros Hd Hf Hp. rewrite fetch_run. unfold FS.mkdir. rewrite Hd, Hf, Hp. eauto.
Qed.

(** X17. When the virtual environment cannot be created, the run ends with the
    [CalledProcessError] of that command, which is the only command
    started: [pip] is never run and no file is copied. *)
Theorem fetch_venv_error args st fs1 :
  FS.mkdir (output args) (fs st) = inr fs1 ->
  returncode (create_venv executable tmp) <> 0%Z ->
  run_main args st
    = (Raised (CalledProcessError (create_venv executable tmp)
                 (returncode (create_venv executable tmp))),
       mkState fs1 (trace st ++ [EvRun (create_venv executable tmp)])) /\
  runs (trace (run_main args st).2)
    = runs (trace st) ++ [create_venv executable tmp] /\
  files (fs (run_main args st).2) = files (fs st).
Proof.
  intros Hm Hv. rewrite fetch_run, Hm. simpl.
  apply Z.eqb_neq in Hv. rewrite Hv. simpl.
  split; [reflexivity|]. split; [|apply (mkdir_files _ _ _ Hm)].
  rewrite runs_app. reflexivity.
Qed.

(** X18. When the output directory and the virtual environment can be
    created and every package can be installed, the commands started by
    the run are the creation of the environment and then the installation
    of each package, once each and in the order of [PACKAGES], whatever
    happens afterwards; and the run creates no directory besides the output
    directory. *)
Theorem fetch_installs_in_order args st fs1 :
  FS.mkdir (output args) (fs st) = inr fs1 ->
  returncode (create_venv executable tmp) = 0%Z ->
  Forall (fun p => returncode (pip_install pip p) = 0%Z) PACKAGES ->
  runs (trace (run_main args st).2)
    = runs (trace st) ++ create_venv executable tmp :: map (pip_install pip) PACKAGES /\
  dirs (fs (run_main args st).2) = dirs fs1.
Proof.
  intros Hm Hv Hok. rewrite fetch_run, Hm. simpl.
  apply Z.eqb_eq in Hv. rewrite Hv.
  destruct (install_all PACKAGES
              (mkState fs1 (trace st ++ [EvRun (create_venv executable tmp)])) Hok)
    as (st2 & Hrun & Hfs & Htr).
  rewrite Hrun.
  assert (Hruns : runs (trace st2)
                  = runs (trace st)
                      ++ create_venv executable tmp :: map (pip_install pip) PACKAGES).
  { rewrite Htr. simpl. rewrite runs_app. unfold runs at 2. simpl.
    rewrite <- app_assoc. reflexivity. }
  destruct libs_found as [e|libs]; simpl.
  - split; [exact Hruns|by rewrite Hfs].
  - destruct (copy_libs_runs libs (output args) st2) as [Hd Hr].
    split; [|by rewrite Hd, Hfs].
    rewrite runs_app, Hr, Hruns. unfold runs at 3. simpl. by rewrite app_nil_r.
Qed.

(** X19. Whatever the run does, a file that differs afterwards is the copy of a
    library that the glob listed and whose path contains the word [nvidia]
    somewhere (in a directory name or in the file name): it has the name of
    that library, lies directly inside the output directory, and holds the
    content of such a library. *)
Theorem fetch_changes_only_nvidia_copies args st (p : path) :
  files (fs (run_main args st).2) !! p <> files (fs st) !! p ->
  exists libs lib content pre post,
    libs_found = inr libs /\
    (lib, content) ∈ libs /\
    FS.show lib = pre +:+ "nvidia" +:+ post /\
    p = output args ++ [name lib] /\
    files (fs (run_main args st).2) !! p = Some content.
Proof.
  rewrite fetch_run.
  destruct (FS.mkdir (output args) (fs st)) as [e|fs1] eqn:Hm; [by intros []|].
  pose proof (mkdir_files _ _ _ Hm) as Hf. simpl.
  destruct (returncode (create_venv executable tmp) =? 0)%Z;
    [|simpl; rewrite Hf; by intros []].
  pose proof (install_fs PACKAGES
                (mkState fs1 (trace st ++ [EvRun (create_venv executable tmp)]))) as Hfs.
  destruct (install returncode pip PACKAGES _) as [[[]|e|msg] st2];
    simpl in Hfs; try (simpl; rewrite Hfs, Hf; by intros []).
  destruct libs_found as [e|libs] eqn:Hl; [simpl; rewrite Hfs, Hf; by intros []|].
  simpl. intros H.
  assert (H' : files (fs (copy_libs libs (output args) st2).2) !! p
               <> files (fs st2) !! p) by (rewrite Hfs, Hf; exact H).
  destruct (copy_libs_changed _ _ _ _ H') as (lib & c & Hin & Hw & Hp & Hc).
  apply contains_spec in Hw as (pre & post & Hw).
  exists libs, lib, c, pre, post. auto.
Qed.

(** X20. When two libraries that are copied have the same name, the one the glob
    lists last is the one found in the output directory after a successful
    run. *)
Theorem fetch_last_copy_wins args st fs1 libs1 lib content libs2 :
  FS.mkdir (output args) (fs st) = inr fs1 ->
  returncode (create_venv executable tmp) = 0%Z ->
  Forall (fun p => returncode (pip_install pip p) = 0%Z) PACKAGES ->
  libs_found = inr (libs1 ++ (lib, content) :: libs2) ->
  wanted lib = true ->
  Forall (fun lc => wanted lc.1 = true -> name lc.1 <> name lib) libs2 ->
  files (fs (run_main args st).2) !! (output args ++ [name lib]) = Some content.
Proof.
  intros Hm Hv Hok Hl Hw Hlater. rewrite fetch_run, Hm. simpl.
  apply Z.eqb_eq in Hv. rewrite Hv.
  destruct (install_all PACKAGES
              (mkState fs1 (trace st ++ [EvRun (create_venv executable tmp)])) Hok)
    as (st2 & Hrun & _).
  rewrite Hrun, Hl. simpl. by apply copy_libs_last.
Qed.

(** X21. When the libraries cannot be listed (off Windows, the environment has
    no [lib/python3.*] directory and [next] raises), the run ends with that
    exception after every package has been installed, and nothing is
    copied. *)
Theorem fetch_no_python_dir args st fs1 e :
  libs_found = inl e ->
  FS.mkdir (output args) (fs st) = inr fs1 ->
  returncode (create_venv executable tmp) = 0%Z ->
  Forall (fun p => returncode (pip_install pip p) = 0%Z) PACKAGES ->
  (run_main args st).1 = Raised e /\
  fs (run_main args st).2 = fs1 /\
  runs (trace (run_main args st).2)
    = runs (trace st) ++ create_venv executable tmp :: map (pip_install pip) PACKAGES.
Proof.
  intros Hl Hm Hv Hok. rewrite fetch_run, Hm. simpl.
  apply Z.eqb_eq in Hv. rewrite Hv.
  destruct (install_all PACKAGES
              (mkState fs1 (trace st ++ [EvRun (create_venv executable tmp)])) Hok)
    as (st2 & Hrun & Hfs & Htr).
  rewrite Hrun, Hl. simpl.
  split; [reflexivity|]. split; [exact Hfs|].
  rewrite Htr. simpl. rewrite runs_app. unfold runs at 2. simpl.
  rewrite <- app_assoc. reflexivity.
Qed.

End facts.

Lemma fetch_output_parent_missing_witness :
  is_dir (fs initial) ["vendor"] = false /\
  exists msg,
    main false "python3" ["tmp"] all_succeed python311 example_glob
      (mkArgs ["vendor"; "libs"]) initial
    = (Raised (OSError msg), initial).
Proof.
  split; [reflexivity|].
  apply (fetch_output_parent_missing false "python3" ["tmp"] all_succeed python311
           example_glob (mkArgs ["vendor"; "libs"]) initial); reflexivity.
Defined.

Lemma fetch_venv_error_witness :
  all_fail (create_venv "python3" ["tmp"]) <> 0%Z /\
  runs (trace (main false "python3" ["tmp"] all_fail python311 example_glob
                 default_args initial).2)
  = [create_venv "python3" ["tmp"]].
Proof.
  assert (H : all_fail (create_venv "python3" ["tmp"]) <> 0%Z) by discriminate.
  split; [exact H|].
  destruct (fetch_venv_error false "python3" ["tmp"] all_fail python311 example_glob
              default_args initial (FS.mk {[ ["libs"] ]} ∅) eq_refl H)
    as (_ & H2 & _).
  exact H2.
Defined.

Lemma fetch_installs_in_order_witness :
  Forall (fun p => all_succeed (pip_install (Cuda.pip false ["tmp"]) p) = 0%Z) PACKAGES /\
  runs (trace (main false "python3" ["tmp"] all_succeed python311 example_glob
                 default_args initial).2)
  = runs (trace initial)
      ++ create_venv "python3" ["tmp"]
           :: map (pip_install (Cuda.pip false ["tmp"])) PACKAGES.
Proof.
  assert (H : Forall (fun p => all_succeed (pip_install (Cuda.pip false ["tmp"]) p) = 0%Z)
                PACKAGES) by (repeat constructor).
  split; [exact H|].
  destruct (fetch_installs_in_order false "python3" ["tmp"] all_succeed python311
              example_glob default_args initial (FS.mk {[ ["libs"] ]} ∅)
              eq_refl eq_refl H) as [H1 _].
  exact H1.
Defined.

Lemma fetch_changes_only_nvidia_copies_witness :
  files (fs (main false "python3" ["tmp"] all_succeed python311 example_glob
               default_args initial).2) !! ["libs"; "libcudnn.so.9"]
    <> files (fs initial) !! ["libs"; "libcudnn.so.9"] /\
  exists libs lib content pre post,
    site_libs false ["tmp"] python311 example_glob = inr libs /\
    (lib, content) ∈ libs /\
    FS.show lib = pre +:+ "nvidia" +:+ post /\
    ["libs"; "libcudnn.so.9"] = output default_args ++ [name lib] /\
    files (fs (main false "python3" ["tmp"] all_succeed python311 example_glob
                 default_args initial).2) !! ["libs"; "libcudnn.so.9"] = Some content.
Proof.
  assert (H : files (fs (main false "python3" ["tmp"] all_succeed python311 example_glob
                           default_args initial).2) !! ["libs"; "libcudnn.so.9"]
              <> files (fs initial) !! ["libs"; "libcudnn.so.9"])
    by (vm_compute; discriminate).
  split; [exact H|].
  apply (fetch_changes_only_nvidia_copies false "python3" ["tmp"] all_succeed
           python311 example_glob default_args initial _ H).
Defined.

Lemma fetch_last_copy_wins_witness :
  wanted ["tmp"; "venv"; "lib"; "python3.11"; "site-packages";
          "nvidia"; "extra"; "libcublas.so.12"] = true /\
  files (fs (main false "python3" ["tmp"] all_succeed python311 twice_glob
               default_args initial).2) !! ["libs"; "libcublas.so.12"]
  = Some "second".
Proof.
  split; [reflexivity|].
  apply (fetch_last_copy_wins false "python3" ["tmp"] all_succeed python311 twice_glob
           default_args initial (FS.mk {[ ["libs"] ]} ∅)
           [(["tmp"; "venv"; "lib"; "python3.11"; "site-packages";
              "nvidia"; "cublas"; "lib"; "libcublas.so.12"], "first")]
           ["tmp"; "venv"; "lib"; "python3.11"; "site-packages";
            "nvidia"; "extra"; "libcublas.so.12"]
           "second" []);
    [reflexivity|reflexivity|repeat constructor|reflexivity|reflexivity|constructor].
Defined.

Lemma fetch_no_python_dir_witness :
  site_libs false ["tmp"] (inl StopIteration) example_glob = inl StopIteration /\
  (main false "python3" ["tmp"] all_succeed (inl StopIteration) example_glob
     default_args initial).1 = Raised StopIteration /\
  fs (main false "python3" ["tmp"] all_succeed (inl StopIteration) example_glob
        default_args initial).2 = FS.mk {[ ["libs"] ]} ∅.
Proof.
  split; [reflexivity|].
  destruct (fetch_no_python_dir false "python3" ["tmp"] all_succeed (inl StopIteration)
              example_glob default_args initial (FS.mk {[ ["libs"] ]} ∅) StopIteration)
    as (H1 & H2 & _); [reflexivity|reflexivity|reflexivity|repeat constructor|].
  split; [exact H1|exact H2].
Defined.

End CudaFacts.
